(** * SCIMITAR plotting module ([scimitar/plotting.py]): a shallow embedding

    The module is presentation glue: it resolves defaults, calls its
    collaborators (a manifold embedding, a state model, a transition
    model, the clustering routines, the process-wide palette) and issues
    drawing calls.  The embedding keeps that shape:

    - numeric parameters that the module computes itself with exact
      outcomes (neighbour counts, grids built by [np.arange]) are
      rationals and integers, the decimal literals [0.8] and [0.02] being
      read as written; the integers computed from them (a truncation, a
      number of grid points) are those of binary64 arithmetic for every
      row count below [2^40];
    - floating-point quantities that only flow through the module
      (coordinates, weights, marker sizes) live in an abstract carrier
      [F] with the operations the source applies to them;
    - drawing calls and collaborator calls are recorded in a trace, and
      Python exceptions raised by the module's own indexing and by its own
      call sites (a keyword repeated by [**scatter_plot_args]) are
      results. *)

From Stdlib Require Import ZArith QArith Qround Reals Lia Lra.
From stdpp Require Import base list sorting gmap strings.

Local Open Scope Z_scope.

(** ** Python results *)

Inductive exn :=
  | IndexError          (* sequence index out of range *)
  | LookupError         (* palette / centroid lookup failed *)
  | ZeroDivisionError   (* [np.arange] with step 0 *)
  | TypeError           (* a keyword argument given twice in one call *)
  | CollaboratorError.  (* whatever a model object raises from its methods *)

Inductive result (A : Type) :=
  | Ok (a : A)
  | Raise (e : exn).
Arguments Ok {A} a.
Arguments Raise {A} e.

Definition of_option {A} (e : exn) (o : option A) : result A :=
  match o with Some a => Ok a | None => Raise e end.

#[export] Instance result_ret : MRet result := λ A a, Ok a.
#[export] Instance result_bind : MBind result := λ A B f m,
  match m with Ok a => f a | Raise e => Raise e end.
#[export] Instance result_fmap : FMap result := λ A B f m,
  match m with Ok a => Ok (f a) | Raise e => Raise e end.

(** [int(x)] on a number: truncation towards zero. *)
Definition py_int (q : Q) : Z := Z.quot (Qnum q) (Zpos (Qden q)).

(** ** [np.arange(start, stop, step)]

    numpy takes [ceil((stop - start) / step)] elements (none when that is
    not positive), the [i]-th being [start + i * step]; a zero step is
    refused. *)
Definition arange_len (start stop step : Q) : Z :=
  Qceiling ((stop - start) / step).

Definition arange (start stop step : Q) : result (list Q) :=
  if Qeq_bool step 0 then Raise ZeroDivisionError
  else Ok (map (fun i : nat => start + inject_Z (Z.of_nat i) * step)%Q
               (seq 0 (Z.to_nat (arange_len start stop step)))).

(** [np.arange] on ints yields ints. *)
Definition arange_int (start stop step : Z) : result (list Z) :=
  if step =? 0 then Raise ZeroDivisionError
  else Ok (map (fun i : nat => start + Z.of_nat i * step)
               (seq 0 (Z.to_nat (arange_len (inject_Z start) (inject_Z stop)
                                            (inject_Z step))))).

(** The default value of [timepoints] in [plot_transition_model]:
    [np.arange(0, 1, 0.02)]. *)
Definition default_timepoints : result (list Q) := arange 0 1 0.02.

(** Sequence subscription [l[i]] on a Python list or a numpy array: a
    negative index counts from the end. *)
Definition py_index {A} (l : list A) (i : Z) : option A :=
  if 0 <=? i then l !! Z.to_nat i
  else if - Z.of_nat (length l) <=? i then l !! Z.to_nat (Z.of_nat (length l) + i)
  else None.

(** [np.unique(a)]: the sorted distinct values of [a]. *)
Definition np_unique (a : list Z) : list Z := merge_sort Z.le (remove_dups a).

(** [(a == v).sum()]: how many entries of [a] equal [v]. *)
Definition count_eq (a : list Z) (v : Z) : nat :=
  length (filter (λ x, x = v) a).

(** ** Floating-point carrier

    Coordinates, weights and sizes are numpy / Python floats.  The module
    never inspects them beyond the operations below, so they are kept
    abstract; reals are one instance. *)
Class FloatOps (F : Type) := {
  of_Z : Z → F;              (* an int used in float arithmetic, [float(n)] *)
  of_Q : Q → F;              (* a decimal literal *)
  fadd : F → F → F;
  fsub : F → F → F;
  fmul : F → F → F;
  fdiv : F → F → F;
  flog : F → F;              (* [np.log] *)
  fabs : F → F;              (* [abs] *)
  fmax : F → F → F;          (* [max(a, b)] *)
  fmin : F → F → F;          (* [min(a, b)] *)
  ftrunc : F → Z             (* [int(x)] *)
}.

Declare Scope float_scope.
Delimit Scope float_scope with fl.
Notation "x + y" := (fadd x y) : float_scope.
Notation "x - y" := (fsub x y) : float_scope.
Notation "x * y" := (fmul x y) : float_scope.
Notation "x / y" := (fdiv x y) : float_scope.

(** Reals as floats without rounding. *)
Definition Rtrunc (x : R) : Z :=
  if Rle_dec 0 x then Int_part x else (- Int_part (- x))%Z.

#[export] Instance R_FloatOps : FloatOps R := {
  of_Z := IZR; of_Q := Q2R;
  fadd := Rplus; fsub := Rminus; fmul := Rmult; fdiv := Rdiv;
  flog := ln; fabs := Rabs; fmax := Rmax; fmin := Rmin;
  ftrunc := Rtrunc
}.

(** ** The embedding object ([sklearn.manifold.LocallyLinearEmbedding]) *)

Inductive lle_method := standard | modified.

Record LLE (FitState : Type) := mkLLE {
  n_components : Z;
  n_neighbors : Z;
  method : lle_method;
  fit_state : option FitState   (* [None] until the object has been fit *)
}.
Arguments mkLLE {FitState}.
Arguments n_components {FitState}.
Arguments n_neighbors {FitState}.
Arguments method {FitState}.
Arguments fit_state {FitState}.

(** ** Drawing surface *)

Inductive axes := plt | axarr (i : nat) | ax_heatmap.
Inductive axis := x_axis | y_axis.

#[export] Instance axes_eq_dec : EqDecision axes.
Proof. solve_decision. Defined.

(** ** The run of a plotting function *)

Inductive metric := seuclidean | correlation.

(** A state of the metastable graph, as the keys of [edge_weights] carry
    it: the plotter reads its [index] only. *)
Record State := { index : Z }.

Section Runs.
Context {F color kwargs FitState : Type}.

Definition matrix := list (list F).
Definition point := (F * F)%type.
Definition shape0 (data : matrix) : Z := Z.of_nat (length data).

(** The model objects handed in by the caller; their methods may raise. *)
Record StateModel := {
  predict : matrix → result (list Z);
  centroids : Z → option matrix            (* [centroids[s]] *)
}.

Record MetastableGraph := {
  state_model : StateModel;
  graph_state_edges : list (State * State);     (* attribute [state_edges] *)
  graph_edge_weights : list (State * State * F) (* attribute [edge_weights]: the
                                                   dict's items, in iteration order *)
}.

Record TransitionModel := {
  mean : list F → result matrix;
  sample_along_timepoints :
    list F → Z → list point (* low_dim_means *) → bool (* even *) → result matrix
}.

Inductive colouring :=
  | c_each (cs : list color)       (* [c=[...]], one colour per point *)
  | c_named (c : string).          (* [color='black'] *)

(** One constructor per call with a side effect: the embedding's two
    methods and the plotting functions.  The arguments kept are the data
    handed over and the styling that varies between calls; constant
    styling of a single call site ([fontweight], [fontsize], [shade],
    [cut], [frameon], ...) is left out.  Exceptions raised inside the
    plotting library are not modelled; a call that Python refuses before
    the library is entered is (see [splat]). *)
Inductive call :=
  | fit_transform_call (e : LLE FitState) (X : matrix)
  | transform_call (e : LLE FitState) (X : matrix)
  | subplots (n : nat)
  | scatter (ax : axes) (x y : list F) (c : colouring) (s : option (list F))
            (marker : option (Z * Z)) (linewidth alpha : option F)
            (zorder : option Z) (args : option kwargs)
  | plot (ax : axes) (x y : list F) (fmt color : option string)
         (zorder : option Z) (linewidth : F)
  | text (ax : axes) (x y : F) (percent : Z)
  | kdeplot (x y : list F) (n_levels : Z) (cmap : string)
  | clustermap (data : matrix) (standard_scale : option Z) (yticklabels : list string)
               (row_linkage : matrix) (row_colors : list color)
  | set_ticks (ax : axes) (a : axis) (ticks : list Z)
  | set_ticklabels (ax : axes) (a : axis) (labels : list F)
  | set_label (ax : axes) (a : axis) (s : string)
  | setp_fontsize (ax : axes) (a : axis) (size : Z)
  | despine
  | add_subplot
  | tick_params.

(** A run: the calls made, in order, and either a value or the exception
    that stopped it. *)
Definition W (A : Type) : Type := (list call * result A)%type.

#[export] Instance W_ret : MRet W := λ A a, ([], Ok a).
#[export] Instance W_bind : MBind W := λ A B f m,
  match m with
  | (t, Ok a) => let '(t', r) := f a in (t ++ t', r)
  | (t, Raise e) => (t, Raise e)
  end.
Definition emit (c : call) : W unit := ([c], Ok tt).
Definition lift {A} (r : result A) : W A := ([], r).

(** [for x in l: body(x)] *)
Fixpoint for_each {A} (l : list A) (body : A → W unit) : W unit :=
  match l with
  | [] => mret tt
  | x :: l => body x;; for_each l body
  end.

(** [[f(x) for x in l]] where [f] may raise or call out *)
Fixpoint comprehension {A B} (f : A → W B) (l : list A) : W (list B) :=
  match l with
  | [] => mret []
  | x :: l => y ← f x; ys ← comprehension f l; mret (y :: ys)
  end.

End Runs.

Arguments matrix : clear implicits.
Arguments point : clear implicits.
Arguments StateModel : clear implicits.
Arguments MetastableGraph : clear implicits.
Arguments TransitionModel : clear implicits.
Arguments colouring : clear implicits.
Arguments call : clear implicits.
Arguments W : clear implicits.

(** [range(a, b)] *)
Definition py_range (a b : Z) : list Z :=
  map (λ k : nat, a + Z.of_nat k) (seq 0 (Z.to_nat (b - a))).

(** ** Library collaborators

    The palette of [settings], the embedding's methods, and the numpy and
    scipy routines the clustermap is built from. *)
Class Collaborators (F color FitState : Type) := {
  STATE_COLORS : Z → option color;          (* [settings.STATE_COLORS[i]] *)
  lle_fit_transform : LLE FitState → matrix F → result (LLE FitState * list (point F));
  lle_transform : LLE FitState → matrix F → result (list (point F));
  np_gradient_1 : matrix F → matrix F;      (* [np.gradient(a)[1]] *)
  np_T : matrix F → matrix F;               (* [a.T] *)
  np_abs : matrix F → matrix F;             (* [abs(a)] *)
  zscore_0 : matrix F → matrix F;           (* [zscore(a, axis=0)] *)
  pdist : matrix F → metric → list F;
  linkage_complete : list F → matrix F;     (* [linkage(d, method='complete')] *)
  fcluster_maxclust : matrix F → Z → list Z (* [fcluster(Z, t, criterion='maxclust')] *)
}.

(** ** Keyword dictionaries

    [scatter_plot_args] is a dict that the plotters hand on as
    [**scatter_plot_args]; what a call site sees of it is its key set.
    A Python dict with string keys is an instance. *)
Class Keywords (kwargs : Type) := keywords : kwargs → gset string.

#[export] Instance dict_keywords {V : Type} : Keywords (gmap string V) := dom.

Section Plotting.
Context {F color kwargs FitState : Type}.
Context `{FloatOps F} `{Countable color} `{!Collaborators F color FitState}.
Context `{!Keywords kwargs}.

#[local] Abbreviation W := (W F color kwargs FitState).
#[local] Abbreviation call := (call F color kwargs FitState).
#[local] Abbreviation LLE := (LLE FitState).
#[local] Abbreviation matrix := (matrix F).
#[local] Abbreviation point := (point F).

(** [[settings.STATE_COLORS[i] for i in labels]] *)
Definition palette (labels : list Z) : result (list color) :=
  of_option LookupError (mapM STATE_COLORS labels).

(** [embedding.fit_transform(X)] and [embedding.transform(X)] *)
Definition fit_transform (e : LLE) (X : matrix) : W (LLE * list point) :=
  emit (fit_transform_call e X);; lift (lle_fit_transform e X).
Definition transform (e : LLE) (X : matrix) : W (list point) :=
  emit (transform_call e X);; lift (lle_transform e X).

(** [f(..., k=v, ..., **args)] with the keywords [written] at the call
    site: Python refuses the call, with [TypeError] (multiple values for
    a keyword argument), when one of them is also a key of [args].  All
    arguments have been evaluated by then and the callee is not entered.
    A key that collides with a positional parameter depends on the
    callee's signature, which is library code, and is not modelled. *)
Definition splat (written : list string) (args : kwargs) : result unit :=
  if decide (Exists (λ k, k ∈ keywords args) written)
  then Raise TypeError else Ok tt.

(** *** [choose_2d_embedding] *)
Definition choose_2d_embedding (data : matrix) (n_neighbors : option Z) : LLE :=
  let n_neighbors :=
    match n_neighbors with
    | None => py_int (inject_Z (shape0 data) * 0.8)
    | Some n => n
    end in
  let method := if shape0 data <? 50 then modified else standard in
  mkLLE 2 n_neighbors method None.

Open Scope float_scope.

(** *** [plot_metastable_graph] *)

(** The two fallbacks of the overlay branch:
    [if len(state_edges) == 0: state_edges = metastable_graph.state_edges]
    and the same for [edge_weights]. *)
Definition resolve_state_edges (metastable_graph : MetastableGraph F)
    (state_edges : list (State * State)) : list (State * State) :=
  if (length state_edges =? 0)%nat
  then graph_state_edges metastable_graph else state_edges.
Definition resolve_edge_weights (metastable_graph : MetastableGraph F)
    (edge_weights : list (State * State * F)) : list (State * State * F) :=
  if (length edge_weights =? 0)%nat
  then graph_edge_weights metastable_graph else edge_weights.

(** An element of [state_centers]:
    [embedding.transform(metastable_graph.state_model.centroids[s])[0]] *)
Definition state_center (metastable_graph : MetastableGraph F) (embedding : LLE)
    (s : Z) : W point :=
  centroid ← lift (of_option LookupError
                     (centroids (state_model metastable_graph) s));
  projected ← transform embedding centroid;
  lift (of_option IndexError (py_index projected 0)).

(** An element of [sizes]:
    [5000*np.log(1 + (memberships == state).sum()/float(len(memberships)))] *)
Definition node_size (memberships : list Z) (state : Z) : F :=
  of_Z 5000 * flog (of_Z 1 + of_Z (Z.of_nat (count_eq memberships state))
                             / of_Z (Z.of_nat (length memberships))).

(** The body of [for states, weight in edge_weights.items()] *)
Definition draw_edge (X Y : list F) (item : State * State * F) : W unit :=
  let '(state1, state2, weight) := item in
  x1 ← lift (of_option IndexError (py_index X (index state1)));
  x2 ← lift (of_option IndexError (py_index X (index state2)));
  y1 ← lift (of_option IndexError (py_index Y (index state1)));
  y2 ← lift (of_option IndexError (py_index Y (index state2)));
  emit (plot (axarr 1) [x1; x2] [y1; y2] (Some "k-") None (Some 1%Z)
          (fmax (of_Q 0.5) (of_Z 7 * weight)));;
  let midpoint_X := fmin x1 x2 + fabs (x1 - x2) / of_Q 2 in
  let midpoint_Y := fmin y1 y2 + fabs (y1 - y2) / of_Q 2 in
  emit (text (axarr 1) midpoint_X midpoint_Y (ftrunc (weight * of_Z 100))).

Definition plot_metastable_graph (data : matrix) (metastable_graph : MetastableGraph F)
    (n_neighbors : option Z) (plot_edges : bool)
    (state_edges : list (State * State)) (edge_weights : list (State * State * F))
    (embedding : option LLE) (memberships : option (list Z))
    (scatter_plot_args : kwargs)
  : W (option (list color * LLE)) :=
  '(embedding, transformed) ←
    match embedding with
    | None =>
        let embedding := choose_2d_embedding data n_neighbors in
        fit_transform embedding data
    | Some embedding =>
        transformed ← transform embedding data; mret (embedding, transformed)
    end;
  memberships ←
    match memberships with
    | None => lift (predict (state_model metastable_graph) data)
    | Some memberships => mret memberships
    end;
  if negb plot_edges then
    c ← lift (palette memberships);
    lift (splat ["c"; "linewidth"; "alpha"] scatter_plot_args);;
    emit (scatter plt (transformed.*1) (transformed.*2) (c_each c) None
            None (Some (of_Z 0)) (Some (of_Q 0.6)) None (Some scatter_plot_args));;
    emit (set_label plt x_axis "Dimension 1");;
    emit (set_label plt y_axis "Dimension 2");;
    mret None
  else
    emit (subplots 2);;
    c ← lift (palette memberships);
    lift (splat ["c"; "linewidth"; "alpha"] scatter_plot_args);;
    emit (scatter (axarr 0) (transformed.*1) (transformed.*2) (c_each c) None
            None (Some (of_Z 0)) (Some (of_Q 0.6)) None (Some scatter_plot_args));;
    emit (set_ticks (axarr 0) x_axis []);;
    emit (set_ticks (axarr 0) y_axis []);;
    emit despine;;
    let ordered_states := np_unique memberships in
    state_centers ←
      comprehension (state_center metastable_graph embedding) ordered_states;
    let sizes := map (node_size memberships) ordered_states in
    let X := state_centers.*1 in
    let Y := state_centers.*2 in
    let state_edges := resolve_state_edges metastable_graph state_edges in
    let edge_weights := resolve_edge_weights metastable_graph edge_weights in
    for_each edge_weights (draw_edge X Y);;
    c_states ← lift (palette ordered_states);
    emit (scatter (axarr 1) X Y (c_each c_states) (Some sizes)
            None (Some (of_Z 0)) None (Some 2%Z) None);;
    emit (set_ticks (axarr 1) x_axis []);;
    emit (set_ticks (axarr 1) y_axis []);;
    emit despine;;
    emit add_subplot;;
    emit tick_params;;
    emit (set_label plt x_axis "Dimension 1");;
    emit (set_label plt y_axis "Dimension 2");;
    c ← lift (palette memberships);
    mret (Some (c, embedding)).

(** *** [plot_transition_model] *)

(** The body of [for i in range(1, interp_mean.shape[0])] *)
Definition draw_segment (interp_mean : list point) (i : Z) : W unit :=
  p ← lift (of_option IndexError (py_index interp_mean (i - 1)%Z));
  q ← lift (of_option IndexError (py_index interp_mean i));
  emit (plot plt [p.1; q.1] [p.2; q.2] None (Some "black") None (of_Z 3)).

(** [timepoints = None] stands for the omitted argument, whose default is
    [np.arange(0, 1, 0.02)]. *)
Definition plot_transition_model (data : matrix) (transition_model : TransitionModel F)
    (n_neighbors : option Z) (embedding : option LLE) (colors : string)
    (plot_errors : bool) (timepoints : option (list F))
    (scatter_plot_args : kwargs) (error_cmap : string) (n_levels : Z)
  : W LLE :=
  timepoints ←
    match timepoints with
    | None => grid ← lift default_timepoints; mret (of_Q <$> grid)
    | Some timepoints => mret timepoints
    end;
  '(embedding, transformed) ←
    match embedding with
    | None =>
        let embedding := choose_2d_embedding data n_neighbors in
        fit_transform embedding data
    | Some embedding =>
        transformed ← transform embedding data; mret (embedding, transformed)
    end;
  means ← lift (mean transition_model timepoints);
  interp_mean ← transform embedding means;
  (if plot_errors then
     samples ← lift (sample_along_timepoints transition_model timepoints
                       (shape0 data) interp_mean true);
     interp_samples ← transform embedding samples;
     let X_kde := interp_samples.*1 ++ transformed.*1 in
     let Y_kde := interp_samples.*2 ++ transformed.*2 in
     emit (kdeplot X_kde Y_kde n_levels error_cmap)
   else mret tt);;
  lift (splat ["color"] scatter_plot_args);;
  emit (scatter plt (transformed.*1) (transformed.*2) (c_named colors) None
          None None None None (Some scatter_plot_args));;
  emit (scatter plt (interp_mean.*1) (interp_mean.*2) (c_named "black") None
          (Some (5, 2)%Z) None None None None);;
  for_each (py_range 1 (Z.of_nat (length interp_mean))) (draw_segment interp_mean);;
  emit (set_label plt x_axis "Dimension 1");;
  emit (set_label plt y_axis "Dimension 2");;
  emit (set_ticks plt x_axis []);;
  emit (set_ticks plt y_axis []);;
  emit despine;;
  mret embedding.

(** *** [plot_transition_clustermap]

    [gene_clusters] is a [defaultdict(list)]: a missing key starts from
    the empty list. *)
Definition append_gene (gene_clusters : gmap color (list string)) (c : color) (g : string)
  : gmap color (list string) :=
  <[c := default [] (gene_clusters !! c) ++ [g]]> gene_clusters.

(** The loop [for i, cl in enumerate(assignments)], from index [i] on. *)
Fixpoint collect_genes (gene_names : list string) (i : Z) (assignments : list Z)
    (gene_clusters : gmap color (list string)) : result (gmap color (list string)) :=
  match assignments with
  | [] => Ok gene_clusters
  | cl :: rest =>
      c ← of_option LookupError (STATE_COLORS cl);
      g ← of_option IndexError (py_index gene_names i);
      collect_genes gene_names (i + 1)%Z rest (append_gene gene_clusters c g)
  end.

(** The two branches on [gradient]: what is plotted, the
    [standard_scale] argument, and the row linkage. *)
Definition cluster_rows (data_array : matrix) (gradient : bool)
  : matrix * option Z * matrix :=
  if gradient then
    let data_to_plot := zscore_0 (np_T (np_gradient_1 data_array)) in
    let scale := None in
    let metric := seuclidean in
    let row_linkage := linkage_complete (pdist (np_abs data_to_plot) metric) in
    (data_to_plot, scale, row_linkage)
  else
    let data_to_plot := np_T data_array in
    let scale := Some 0%Z in
    let metric := correlation in
    let row_linkage := linkage_complete (pdist data_to_plot metric) in
    (data_to_plot, scale, row_linkage).

(** [/] between the two ints [data_array.shape[0]] and [10] is Python 2's
    floor division; [r] is then an int array, as the subscription
    [pseudotimes[r]] requires. *)
Definition plot_transition_clustermap (data_array : matrix) (gene_names : list string)
    (pseudotimes : list F) (n_clusters : Z) (gradient : bool)
  : W (gmap color (list string)) :=
  let '(data_to_plot, scale, row_linkage) := cluster_rows data_array gradient in
  let assignments := fcluster_maxclust row_linkage n_clusters in
  row_colors ← lift (palette assignments);
  emit (clustermap data_to_plot scale gene_names row_linkage row_colors);;
  r ← lift (arange_int 10 (shape0 data_array) (shape0 data_array / 10)%Z);
  emit (setp_fontsize ax_heatmap y_axis 5);;
  emit (set_ticks ax_heatmap x_axis r);;
  labels ← lift (of_option IndexError (mapM (py_index pseudotimes) r));
  emit (set_ticklabels ax_heatmap x_axis labels);;
  emit (set_label ax_heatmap x_axis "Pseudotime");;
  emit (set_label ax_heatmap y_axis "Gene");;
  lift (collect_genes gene_names 0 assignments ∅).

End Plotting.

(** ** Observing a run *)

Section Observing.
Context {F color kwargs FitState : Type}.

Definition calls {A} (m : W F color kwargs FitState A)
  : list (call F color kwargs FitState) := m.1.
Definition outcome {A} (m : W F color kwargs FitState A) : result A := m.2.

(** A call that leaves the fit of embedding [e] alone: no
    [fit_transform] at all, and [transform] on [e] itself. *)
Definition transform_only (e : LLE FitState) (c : call F color kwargs FitState)
  : Prop :=
  match c with
  | fit_transform_call _ _ => False
  | transform_call e' _ => e' = e
  | _ => True
  end.

(** The line widths handed to [plot] on axes [ax], in call order. *)
Definition plot_linewidths (ax : axes) (t : list (call F color kwargs FitState))
  : list F :=
  omap (λ c, match c with
             | plot ax' _ _ _ _ _ lw => if decide (ax' = ax) then Some lw else None
             | _ => None
             end) t.

(** The [s=] argument of each [scatter] on axes [ax], in call order. *)
Definition scatter_sizes (ax : axes) (t : list (call F color kwargs FitState))
  : list (option (list F)) :=
  omap (λ c, match c with
             | scatter ax' _ _ _ s _ _ _ _ _ =>
                 if decide (ax' = ax) then Some s else None
             | _ => None
             end) t.

(** A call to one of the embedding's methods. *)
Definition embedding_call (c : call F color kwargs FitState) : Prop :=
  match c with
  | fit_transform_call _ _ | transform_call _ _ => True
  | _ => False
  end.

(** The line segments handed to [plot] on axes [ax], each as its two end
    points, in call order. *)
Definition plot_segments (ax : axes) (t : list (call F color kwargs FitState))
  : list (point F * point F) :=
  omap (λ c, match c with
             | plot ax' [x1; x2] [y1; y2] _ _ _ _ =>
                 if decide (ax' = ax) then Some ((x1, y1), (x2, y2)) else None
             | _ => None
             end) t.

End Observing.

(** ** The first two steps of the graph plotter, as relations *)

Section Resolving.
Context {F color kwargs FitState : Type} `{!Collaborators F color FitState}.

(** The embedding step made calls [t0] and left embedding [e] and the
    projected data [transformed]. *)
Definition embedding_resolved (data : matrix F) (n_neighbors : option Z)
    (embedding : option (LLE FitState)) (t0 : list (call F color kwargs FitState))
    (e : LLE FitState) (transformed : list (point F)) : Prop :=
  match embedding with
  | Some given =>
      e = given ∧ lle_transform given data = Ok transformed ∧
      t0 = [transform_call given data]
  | None =>
      let fresh := choose_2d_embedding data n_neighbors in
      lle_fit_transform fresh data = Ok (e, transformed) ∧
      t0 = [fit_transform_call fresh data]
  end.

(** The membership step left [labels]. *)
Definition memberships_resolved (metastable_graph : MetastableGraph F)
    (data : matrix F) (memberships : option (list Z)) (labels : list Z) : Prop :=
  match memberships with
  | Some given => labels = given
  | None => predict (state_model metastable_graph) data = Ok labels
  end.

(** What a call must look like if it draws on the lower panel of the
    overlay: a [scatter] there carries the marker sizes
    [5000 * ln(1 + k/N)], one per state present, [k] of the [N]
    memberships being in the state; a [plot] there carries line width
    [max(0.5, 7 * w)] for one of the edges, [w] being its weight. *)
Definition lower_panel_call `{FloatOps F} (memberships : list Z)
    (edges : list (State * State * F)) (c : call F color kwargs FitState) : Prop :=
  match c with
  | scatter ax _ _ _ s _ _ _ _ _ =>
      ax = axarr 1 →
      s = Some ((λ state,
                   let k := count_eq memberships state in
                   let N := length memberships in
                   of_Z 5000 * flog (of_Z 1 + of_Z (Z.of_nat k) / of_Z (Z.of_nat N)))%fl
                <$> np_unique memberships)
  | plot ax _ _ _ _ _ linewidth =>
      ax = axarr 1 →
      ∃ s1 s2 w, (s1, s2, w) ∈ edges ∧ linewidth = fmax (of_Q 0.5) (of_Z 7 * w)%fl
  | _ => True
  end.

End Resolving.

(** ** More observations of a run *)

Section ObservingMore.
Context {F color kwargs FitState : Type}.

(** The calls to the embedding's methods, in call order. *)
Definition embedding_calls (t : list (call F color kwargs FitState))
  : list (call F color kwargs FitState) :=
  omap (λ c, match c with
             | fit_transform_call _ _ | transform_call _ _ => Some c
             | _ => None
             end) t.

(** The point lists handed to [sns.kdeplot], in call order. *)
Definition kdeplot_points (t : list (call F color kwargs FitState))
  : list (list F * list F) :=
  omap (λ c, match c with kdeplot x y _ _ => Some (x, y) | _ => None end) t.

(** Position and percentage of each [text] on axes [ax], in call order. *)
Definition text_labels (ax : axes) (t : list (call F color kwargs FitState))
  : list (F * F * Z) :=
  omap (λ c, match c with
             | text ax' x y percent =>
                 if decide (ax' = ax) then Some (x, y, percent) else None
             | _ => None
             end) t.

End ObservingMore.

(** ** [plot_gene_clustermap_by_membership]

    The routine hands a matrix to [sns.clustermap] and then relabels the
    heatmap's x-axis; the returned grid object is a record of what it was
    given. *)

(** What the routine leaves to Python and numpy: the order in which a set
    is iterated (any order of the distinct elements), the mean along
    axis 0 and the transpose. *)
Class HeatmapCollaborators (F : Type) := {
  list_of_set : list Z → list Z;           (* [list(set(a))] *)
  list_of_set_distinct : ∀ a, list_of_set a ≡ₚ remove_dups a;
  mean_0 : matrix F → list F;              (* [a.mean(axis=0)] *)
  transposed : matrix F → matrix F         (* [a.T] *)
}.

Record ClusterGrid (F : Type) := mkClusterGrid {
  heatmap_data : matrix F;
  col_cluster : bool;
  xticks : list Q;
  xticklabels : list Z;
  xlabel : string;
  ylabel : string
}.
Arguments mkClusterGrid {F}.
Arguments heatmap_data {F}.
Arguments col_cluster {F}.
Arguments xticks {F}.
Arguments xticklabels {F}.
Arguments xlabel {F}.
Arguments ylabel {F}.

Section MembershipHeatmap.
Context {F : Type} `{FloatOps F} `{!HeatmapCollaborators F}.

(** [a[mask, :]]: the rows of [a] at which the boolean mask holds; the
    mask must have one entry per row. *)
Definition select_rows (a : matrix F) (mask : list bool) : result (matrix F) :=
  if (length mask =? length a)%nat
  then Ok ((filter (λ p, p.1 = true) (zip mask a)).*2)
  else Raise IndexError.

(** [memberships == group] *)
Definition equals_mask (memberships : list Z) (group : Z) : list bool :=
  (λ label, bool_decide (label = group)) <$> memberships.

(** [a.min(axis=0)]: the smallest entry of each column; numpy refuses an
    array without rows (its [ValueError] is reported as
    [CollaboratorError]). *)
Definition min_0 (a : matrix F) : result (list F) :=
  match a with
  | [] => Raise CollaboratorError
  | row :: rows => Ok (foldl (zip_with fmin) row rows)
  end.

(** [a - v], the vector [v] subtracted from every row of [a] *)
Definition subtract_from_rows (a : matrix F) (v : list F) : matrix F :=
  (λ row, zip_with fsub row v) <$> a.

(** The body of [for gi, group in enumerate(groups)]: row [gi] of
    [group_means].  Every row of the zero matrix is overwritten, so
    [group_means] after the loop is the list of these rows. *)
Definition group_mean (data_array : matrix F) (memberships : list Z) (group : Z)
  : result (list F) :=
  rows ← select_rows data_array (equals_mask memberships group);
  mret (mean_0 rows).

Definition plot_gene_clustermap_by_membership (data_array : matrix F)
    (memberships : list Z) : result (ClusterGrid F) :=
  let groups := list_of_set memberships in
  group_means ← mapM (group_mean data_array memberships) groups;
  mins ← min_0 group_means;
  let cm_data := transposed (subtract_from_rows group_means mins) in
  let r := (λ i : nat, inject_Z (Z.of_nat i) + 0.5)%Q <$> seq 0 (length groups) in
  mret (mkClusterGrid cm_data false r groups "Cell type" "Gene").

End MembershipHeatmap.

(** ** A small concrete world

    Reals for floats, strings for colours, a four-colour palette, and an
    embedding that keeps the first two coordinates of each row; fitting
    records the number of training rows.  Keyword dictionaries are
    Python dicts with string keys; the runs below pass the empty one. *)
Module Toy.

Definition first_two (row : list R) : point R :=
  (nth 0 row 0%R, nth 1 row 0%R).

#[global] Instance collaborators : Collaborators R string nat := {
  STATE_COLORS := λ i, py_index ["red"; "blue"; "green"; "orange"]%string i;
  lle_fit_transform := λ e X,
    Ok (mkLLE (n_components e) (n_neighbors e) (method e) (Some (length X)),
        first_two <$> X);
  lle_transform := λ e X,
    match fit_state e with
    | Some _ => Ok (first_two <$> X)
    | None => Raise CollaboratorError
    end;
  np_gradient_1 := λ a, a;
  np_T := λ a, a;
  np_abs := λ a, a;
  zscore_0 := λ a, a;
  pdist := λ a _, [];
  linkage_complete := λ _, [];
  fcluster_maxclust := λ _ t, [1; 2; 1]%Z
}.

Definition fitted : LLE nat := mkLLE 2 3 modified (Some 4%nat).

Definition data : matrix R := [[0; 0]; [1; 0]; [0; 1]; [1; 1]]%R.

Definition two_states : StateModel R := {|
  predict := λ X, Ok (replicate (length X) 0%Z);
  centroids := py_index [[[0; 0]]; [[1; 1]]; [[2; 2]]; [[3; 3]]]%R
|}.

Definition graph : MetastableGraph R := {|
  state_model := two_states;
  graph_state_edges := [(Build_State 0, Build_State 1)];
  graph_edge_weights := [(Build_State 0, Build_State 1, (1 / 2)%R)]
|}.

(** Four observations, three in state 0 and one in state 1. *)
Definition labels : list Z := [0; 0; 1; 0].

Definition graph_run (memberships : option (list Z))
  : W R string (gmap string string) nat (option (list string * LLE nat)) :=
  plot_metastable_graph data graph None true [] [] (Some fitted) memberships ∅.


(** A trajectory along the diagonal, one position per timepoint. *)
Definition diagonal : TransitionModel R := {|
  mean := λ timepoints : list R, Ok (map (λ x : R, [x; x]) timepoints);
  sample_along_timepoints := λ _ _ _ _, Ok []
|}.

Definition transition_run : W R string (gmap string string) nat (LLE nat) :=
  plot_transition_model data diagonal None (Some fitted) "magenta" true
    (Some [0; 1 / 2; 1]%R) ∅ "Oranges" 4.

(** Keyword dictionaries that repeat a keyword written at a call site. *)
Definition faint : gmap string string := {["alpha" := "0.3"]}%string.
Definition green : gmap string string := {["color" := "green"]}%string.

(** One hundred pseudotime points of three genes; the toy clustering
    puts the first and the third gene in cluster 1, the second in
    cluster 2. *)
Definition expression : matrix R := replicate 100 [0; 0; 0]%R.
Definition pseudotimes : list R := replicate 100 0%R.

Definition clustermap_run (gene_names : list string)
  : W R string (gmap string string) nat (gmap string (list string)) :=
  plot_transition_clustermap expression gene_names pseudotimes 10 false.

End Toy.

(** Reals again, sets iterated in ascending order, the arithmetic mean. *)
Module ToyHeatmap.

Definition column_sums (a : matrix R) : list R :=
  match a with
  | [] => []
  | row :: rows => foldl (zip_with Rplus) row rows
  end.

#[global] Instance collaborators : HeatmapCollaborators R := {
  list_of_set := np_unique;
  list_of_set_distinct := λ a, merge_sort_Permutation Z.le (remove_dups a);
  mean_0 := λ a, (λ x, x / INR (length a))%R <$> column_sums a;
  transposed := λ a, a
}.

(** Four cells of two genes, the third cell being of type 1. *)
Definition expression : matrix R := [[1; 4]; [3; 0]; [5; 5]; [2; 2]]%R.
Definition cell_types : list Z := [0; 0; 1; 0].

End ToyHeatmap.

(** ** What the specification says, in its own words *)

(** [round(x)]: the nearest integer, a tie going to the even one. *)
Definition spec_round (q : Q) : Z :=
  let f := Qfloor q in
  match (q - inject_Z f ?= 1 # 2)%Q with
  | Lt => f
  | Gt => f + 1
  | Eq => if Z.even f then f else f + 1
  end.

(** ** Grids *)

Lemma default_timepoints_Ok : ∃ grid, default_timepoints = Ok grid.
Proof. eexists. vm_compute. reflexivity. Qed.

Lemma arange_len_int (start stop step : Z) :
  0 < step →
  arange_len (inject_Z start) (inject_Z stop) (inject_Z step)
  = - ((start - stop) / step).
Proof.
  intros Hstep. destruct step as [|p|p]; try lia.
  unfold arange_len, Qceiling, Qfloor, Qdiv, Qinv, Qmult, Qminus, Qplus, Qopp,
    inject_Z. simpl. f_equal. f_equal. lia.
Qed.

Lemma arange_int_Ok (start stop step : Z) (r : list Z) :
  arange_int start stop step = Ok r ↔
  step ≠ 0 ∧
  r = (λ i : nat, start + Z.of_nat i * step)
        <$> seq 0 (Z.to_nat (arange_len (inject_Z start) (inject_Z stop)
                                        (inject_Z step))).
Proof.
  unfold arange_int. destruct (Z.eqb_spec step 0) as [->|Hne].
  - split; [discriminate|]. by intros [? _].
  - split; [by intros [= <-]|]. by intros [_ ->].
Qed.

Lemma default_timepoints_value :
  default_timepoints
  = Ok (map (λ i : nat, 0 + inject_Z (Z.of_nat i) * 0.02)%Q (seq 0 50)).
Proof. vm_compute. reflexivity. Qed.

(** C1 (amended).  When the caller omits the timepoint grid, the default
    grid consists of 50 evenly spaced timepoints over the half-open
    interval [0,1): the [i]-th is [i * 0.02]. *)
Theorem default_timepoints_fifty_evenly_spaced :
  ∃ grid,
    default_timepoints = Ok grid ∧
    length grid = 50%nat ∧
    (∀ (i : nat) (x : Q), grid !! i = Some x →
       (x == inject_Z (Z.of_nat i) * 0.02 ∧ 0 <= x ∧ x < 1)%Q) ∧
    ∀ (F color kwargs FitState : Type) `(FloatOps F) `(Countable color)
      `(!Collaborators F color FitState) `(!Keywords kwargs)
      (data : matrix F) (tm : TransitionModel F) nn emb colors perr
      (args : kwargs) cmap nl,
      plot_transition_model data tm nn emb colors perr None args cmap nl
      = plot_transition_model data tm nn emb colors perr
          (Some (of_Q <$> grid)) args cmap nl.
Proof.
  eexists. split; [apply default_timepoints_value|].
  split; [reflexivity|]. split.
  - intros i x Hix. rewrite list_lookup_fmap in Hix.
    destruct (seq 0 50 !! i) as [j|] eqn:Hj; [|done].
    apply lookup_seq in Hj as [-> Hi]. injection Hix as <-.
    split; [ring|]. unfold Qle, Qlt. simpl. lia.
  - intros. unfold plot_transition_model.
    rewrite default_timepoints_value. reflexivity.
Qed.

(** C1, as stated, fails: the default grid does not have 100 points. *)
Lemma default_timepoints_not_hundred_points :
  ¬ ∃ grid, default_timepoints = Ok grid ∧ length grid = 100%nat.
Proof.
  intros (grid & Hgrid & Hlen). rewrite default_timepoints_value in Hgrid.
  injection Hgrid as <-. discriminate Hlen.
Qed.

(** ** The embedding selector *)

Lemma py_int_tenths (n k : Z) :
  0 <= n → 0 <= k → py_int (inject_Z n * (k # 10)) = (n * k) / 10.
Proof.
  intros Hn Hk. unfold py_int. simpl.
  rewrite Z.quot_div_nonneg by lia. reflexivity.
Qed.

(** C2 (amended).  When [n_neighbors] is omitted the selector configures
    the projector with [int(0.8 * row_count)]: 80% of the observation
    count with the fraction dropped, that is [4 * row_count / 5] rounded
    down.  This is the nearest integer [round(0.8 * row_count)] exactly
    when the dropped fraction is below one half. *)
Theorem choose_2d_embedding_default_neighbors
    {F FitState : Type} (data : list (list F)) :
  let rows := shape0 data in
  let chosen := n_neighbors (choose_2d_embedding (FitState := FitState) data None) in
  chosen = Qfloor (inject_Z rows * 0.8) ∧
  chosen = (4 * rows) / 5 ∧
  (chosen = spec_round (inject_Z rows * 0.8) ↔ (4 * rows) mod 5 <= 2).
Proof.
  intros rows chosen.
  assert (Hrows : 0 <= rows) by (unfold rows, shape0; lia).
  assert (Hc : chosen = (rows * 8) / 10).
  { unfold chosen, choose_2d_embedding. simpl. fold rows.
    apply py_int_tenths; lia. }
  split; [exact Hc|]. split.
  { rewrite Hc. Z.div_mod_to_equations. lia. }
  rewrite Hc. unfold spec_round.
  change (Qfloor (inject_Z rows * 0.8)) with ((rows * 8) / 10).
  set (f := (rows * 8) / 10).
  assert (Hcmp : (inject_Z rows * 0.8 - inject_Z f ?= 1 # 2)%Q
                 = ((rows * 8 - f * 10) * 2 ?= 10)).
  { unfold Qcompare. simpl. f_equal; lia. }
  rewrite Hcmp. subst f.
  destruct (Z.compare_spec ((rows * 8 - rows * 8 / 10 * 10) * 2) 10) as [E|E|E];
    [ destruct (Z.even (rows * 8 / 10)) | | ];
    Z.div_mod_to_equations; lia.
Qed.

(** C2, as stated, fails for two observations: [int(1.6)] is [1], while
    [round(1.6)] is [2]. *)
Lemma choose_2d_embedding_neighbors_not_round :
  let data : list (list Z) := [[]; []] in
  n_neighbors (choose_2d_embedding (FitState := unit) data None)
  ≠ spec_round (inject_Z (shape0 data) * 0.8).
Proof. vm_compute. discriminate. Qed.

(** ** Runs: how calls and outcomes compose *)

Section RunFacts.
Context {F color kwargs FitState : Type}.
#[local] Abbreviation W' := (W F color kwargs FitState).
#[local] Abbreviation call' := (call F color kwargs FitState).

Lemma bind_Ok {A B} (m : W' A) (f : A → W' B) t b :
  m ≫= f = (t, Ok b) ↔
  ∃ t1 a t2, m = (t1, Ok a) ∧ f a = (t2, Ok b) ∧ t = t1 ++ t2.
Proof.
  destruct m as [t1 [a|e]]; simpl; unfold mbind, W_bind; simpl.
  - destruct (f a) as [t2 r] eqn:Hf. split.
    + intros [= <- ->]. eauto 10.
    + intros (? & ? & ? & [= <- <-] & Hfa & ->).
      rewrite Hf in Hfa. by injection Hfa as -> ->.
  - split; [discriminate|]. by intros (? & ? & ? & [=] & _).
Qed.

Lemma emit_Ok (c : call') t u : emit c = (t, Ok u) ↔ t = [c].
Proof. unfold emit. destruct u. split; [by intros [= <-]|by intros ->]. Qed.

Lemma lift_Ok {A} (r : result A) t a :
  lift (F := F) (color := color) (kwargs := kwargs) (FitState := FitState) r
  = (t, Ok a) ↔ t = [] ∧ r = Ok a.
Proof. unfold lift. split; [by intros [= <- ->]|by intros [-> ->]]. Qed.

Lemma ret_Ok {A} (a : A) t b : (mret a : W' A) = (t, Ok b) ↔ t = [] ∧ a = b.
Proof. split; [by intros [= <- ->]|by intros [-> ->]]. Qed.

Lemma for_each_Ok {A} (l : list A) (body : A → W' unit) t u :
  for_each l body = (t, Ok u) ↔
  ∃ ts, Forall2 (λ x tx, body x = (tx, Ok tt)) l ts ∧ t = concat ts.
Proof.
  destruct u. revert t. induction l as [|x l IH]; intros t; simpl.
  - split.
    + intros [= <-]. exists []. by split; [constructor|].
    + intros (ts & Hts & ->). by inversion Hts.
  - rewrite bind_Ok. split.
    + intros (t1 & [] & t2 & Hx & Hl & ->).
      apply IH in Hl as (ts & Hts & ->).
      exists (t1 :: ts). by split; [constructor|].
    + intros (ts & Hts & ->). inversion Hts as [|? tx ? ts' Hx Hl]; subst.
      exists tx, tt, (concat ts'). split; [done|]. split; [|done].
      apply IH. eauto.
Qed.

Lemma comprehension_Ok {A B} (f : A → W' B) (l : list A) t ys :
  comprehension f l = (t, Ok ys) ↔
  ∃ ts, Forall3 (λ x tx y, f x = (tx, Ok y)) l ts ys ∧ t = concat ts.
Proof.
  revert t ys. induction l as [|x l IH]; intros t ys; simpl.
  - split.
    + intros [= <- <-]. exists []. by split; [constructor|].
    + intros (ts & Hts & ->). by inversion Hts.
  - rewrite bind_Ok. split.
    + intros (t1 & y & t2 & Hx & Hk & ->).
      apply bind_Ok in Hk as (t3 & ys' & t4 & Hl & [= <- <-] & ->).
      apply IH in Hl as (ts & Hts & ->).
      exists (t1 :: ts). split; [by constructor|].
      simpl. by rewrite app_nil_r.
    + intros (ts & Hts & ->).
      inversion Hts as [|? tx y ? ts' ys' Hx Hl]; subst.
      exists tx, y, (concat ts'). split; [done|]. split; [|done].
      apply bind_Ok. exists (concat ts'), ys', []. split; [apply IH; eauto|].
      split; [done|]. by rewrite app_nil_r.
Qed.

Lemma comprehension_length {A B} (f : A → W' B) (l : list A) t ys :
  comprehension f l = (t, Ok ys) → length ys = length l.
Proof.
  intros (ts & Hts & _)%comprehension_Ok.
  induction Hts; simpl; congruence.
Qed.

(** Calls of a composite run. *)
Lemma Forall_calls_bind {A B} (P : call' → Prop) (m : W' A) (f : A → W' B) :
  Forall P (calls m) →
  (∀ a, outcome m = Ok a → Forall P (calls (f a))) →
  Forall P (calls (m ≫= f)).
Proof.
  destruct m as [t [a|e]]; unfold calls, outcome; simpl; intros Hm Hf;
    unfold mbind, W_bind; simpl; [|done].
  specialize (Hf a eq_refl). destruct (f a) as [t' r]. simpl in *.
  by apply Forall_app.
Qed.

Lemma Forall_calls_emit (P : call' → Prop) c : P c → Forall P (calls (emit c)).
Proof. intros. by apply Forall_singleton. Qed.

Lemma Forall_calls_lift {A} (P : call' → Prop) (r : result A) :
  Forall P (calls (lift r)).
Proof. constructor. Qed.

Lemma Forall_calls_ret {A} (P : call' → Prop) (a : A) :
  Forall P (calls (mret a : W' A)).
Proof. constructor. Qed.

Lemma Forall_calls_for_each {A} (P : call' → Prop) (l : list A) body :
  (∀ x, x ∈ l → Forall P (calls (body x))) →
  Forall P (calls (for_each l body)).
Proof.
  induction l as [|x l IH]; intros Hb; simpl; [constructor|].
  apply Forall_calls_bind; [apply Hb; left|].
  intros _ _. apply IH. intros y Hy. apply Hb. by right.
Qed.

Lemma Forall_calls_comprehension {A B} (P : call' → Prop) (f : A → W' B) l :
  (∀ x, x ∈ l → Forall P (calls (f x))) →
  Forall P (calls (comprehension f l)).
Proof.
  induction l as [|x l IH]; intros Hf; simpl; [constructor|].
  apply Forall_calls_bind; [apply Hf; left|]. intros y _.
  apply Forall_calls_bind; [apply IH; intros z Hz; apply Hf; by right|].
  intros ys _. constructor.
Qed.

End RunFacts.

(** Calls of a run, constructor by constructor. *)
Ltac calls_step :=
  first
    [ apply Forall_calls_emit; first [exact I | reflexivity]
    | apply Forall_calls_lift
    | apply Forall_calls_ret
    | apply Forall_calls_bind; [|intros ? ?] ].

(** Taking a successful run apart, bind by bind. *)
Ltac run_inv :=
  repeat match goal with
  | H : _ ≫= _ = (_, Ok _) |- _ =>
      let H1 := fresh "Hrun" in
      let H2 := fresh "Hrun" in
      apply bind_Ok in H as (? & ? & ? & H1 & H2 & ?)
  | H : emit _ = (_, Ok _) |- _ => apply emit_Ok in H
  | H : lift _ = (_, Ok _) |- _ => apply lift_Ok in H as [? H]
  | H : mret _ = (_, Ok _) |- _ => apply ret_Ok in H as [? H]
  | x : (_ * _)%type |- _ => destruct x; cbn beta iota in *
  | x : unit |- _ => destruct x
  end.

(** Putting a successful run together from its stages; the trace on the
    right must be written as the stages produce it. *)
Ltac run_build :=
  repeat (apply bind_Ok; eexists _, _, _; split;
    [ first [ eassumption | reflexivity
            | apply lift_Ok; split; [reflexivity | eassumption] ]
    | split; cycle 1; [reflexivity|]; cbn beta iota ]).

(** ** Sequences: [np.unique], counting, subscription *)

Lemma elem_of_np_unique (a : list Z) (s : Z) : s ∈ np_unique a ↔ s ∈ a.
Proof.
  unfold np_unique. rewrite merge_sort_Permutation. apply elem_of_remove_dups.
Qed.

Lemma NoDup_np_unique (a : list Z) : NoDup (np_unique a).
Proof.
  unfold np_unique. rewrite merge_sort_Permutation. apply NoDup_remove_dups.
Qed.

Lemma StronglySorted_le_NoDup_lt (l : list Z) :
  StronglySorted Z.le l → NoDup l → StronglySorted Z.lt l.
Proof.
  induction 1 as [|x l Hl IH Hx]; intros Hnd; [constructor|].
  apply NoDup_cons in Hnd as [Hxl Hnd]. constructor; [by apply IH|].
  apply Forall_forall. intros y Hy.
  assert (x ≠ y) by (intros ->; done).
  rewrite Forall_forall in Hx. specialize (Hx y Hy). lia.
Qed.

Lemma np_unique_sorted (a : list Z) : StronglySorted Z.lt (np_unique a).
Proof.
  apply StronglySorted_le_NoDup_lt; [|apply NoDup_np_unique].
  unfold np_unique. apply (StronglySorted_merge_sort _).
Qed.

(** In a strictly ascending list of integers, values grow at least as
    fast as positions. *)
Lemma ascending_gap (l : list Z) (i j : nat) (x y : Z) :
  StronglySorted Z.lt l → l !! i = Some x → l !! j = Some y → (i ≤ j)%nat →
  x + Z.of_nat (j - i) <= y.
Proof.
  intros Hl. revert i j x y.
  induction Hl as [|z l Hl IH Hz]; intros i j x y Hi Hj Hij.
  - by rewrite lookup_nil in Hi.
  - destruct i as [|i], j as [|j]; simpl in *; simplify_eq; try lia.
    + rewrite Forall_forall in Hz.
      assert (x < y) by (apply Hz; by eapply list_elem_of_lookup_2).
      destruct j as [|j]; [lia|].
      destruct (lookup_lt_is_Some_2 l 0%nat) as [w Hw].
      { apply lookup_lt_Some in Hj. lia. }
      assert (x < w) by (apply Hz; by eapply list_elem_of_lookup_2).
      specialize (IH 0%nat (S j) w y Hw Hj ltac:(lia)). lia.
    + specialize (IH i j x y Hi Hj ltac:(lia)). lia.
Qed.


Lemma count_eq_bounds (a : list Z) (s : Z) :
  s ∈ a → (1 ≤ count_eq a s ≤ length a)%nat.
Proof.
  intros Hs. unfold count_eq. split; [|apply length_filter].
  assert (Hin : s ∈ filter (λ x, x = s) a) by (by apply list_elem_of_filter).
  destruct (filter (λ x, x = s) a); [by apply elem_of_nil in Hin|simpl; lia].
Qed.

Lemma py_index_nonneg {A} (l : list A) (i : Z) :
  0 <= i → py_index l i = l !! Z.to_nat i.
Proof. intros Hi. unfold py_index. by rewrite (proj2 (Z.leb_le 0 i) Hi). Qed.



(** ** The plotters *)

Section PlotterFacts.
Context {F color kwargs FitState : Type}.
Context `{FloatOps F} `{Countable color} `{!Collaborators F color FitState}.
Context `{!Keywords kwargs}.
#[local] Abbreviation W' := (W F color kwargs FitState).
#[local] Abbreviation call' := (call F color kwargs FitState).

Implicit Types (data : matrix F) (e embedding : LLE FitState).
Implicit Types (P : call' → Prop) (t : list call').

Lemma Forall_calls_transform P e (X : matrix F) :
  P (transform_call e X) →
  Forall P (calls (transform (kwargs := kwargs) e X)).
Proof.
  intros HP. unfold transform.
  apply Forall_calls_bind; [by apply Forall_calls_emit|].
  intros _ _. apply Forall_calls_lift.
Qed.

Lemma transform_only_given P e data :
  P (transform_call e data) →
  Forall P (calls (transformed ← transform (kwargs := kwargs) e data;
                   mret (e, transformed))) ∧
  ∀ e' pts, outcome (transformed ← transform (kwargs := kwargs) e data;
                     mret (e, transformed)) = Ok (e', pts) → e' = e.
Proof.
  intros HP. split.
  - apply Forall_calls_bind; [by apply Forall_calls_transform|].
    intros. apply Forall_calls_ret.
  - intros e' pts. unfold transform, outcome, emit, lift. simpl.
    unfold mbind, W_bind. simpl.
    destruct (lle_transform e data); simpl; congruence.
Qed.


Lemma state_center_transform_only g e s :
  Forall (transform_only e : call' → Prop) (calls (state_center g e s)).
Proof. unfold state_center, transform. repeat calls_step. Qed.

Lemma draw_edge_no_embedding_call e (X Y : list F) item :
  Forall (transform_only e : call' → Prop) (calls (draw_edge X Y item)).
Proof. destruct item as [[s1 s2] w]. unfold draw_edge. repeat calls_step. Qed.

Lemma draw_segment_no_embedding_call e (interp_mean : list (point F)) i :
  Forall (transform_only e : call' → Prop)
         (calls (draw_segment interp_mean i)).
Proof. unfold draw_segment. repeat calls_step. Qed.

Lemma plot_metastable_graph_transform_only data g nn pe se ew e ms args :
  Forall (transform_only e : call' → Prop)
         (calls (plot_metastable_graph data g nn pe se ew (Some e) ms args)).
Proof.
  unfold plot_metastable_graph.
  destruct (transform_only_given (transform_only e) e data eq_refl) as [H1 H2].
  apply Forall_calls_bind; [exact H1|].
  intros [e' transformed] ->%H2.
  apply Forall_calls_bind; [destruct ms; calls_step|]. intros memberships _.
  destruct pe; cbn [negb].
  - repeat calls_step.
    + apply Forall_calls_comprehension. intros. apply state_center_transform_only.
    + apply Forall_calls_for_each. intros. apply draw_edge_no_embedding_call.
  - repeat calls_step.
Qed.

Lemma plot_transition_model_transform_only data tm nn e colors perr tps args cmap nl :
  Forall (transform_only e : call' → Prop)
         (calls (plot_transition_model data tm nn (Some e) colors perr tps
                   args cmap nl)).
Proof.
  unfold plot_transition_model.
  destruct (transform_only_given (transform_only e) e data eq_refl) as [H1 H2].
  apply Forall_calls_bind; [destruct tps; repeat calls_step|]. intros timepoints _.
  apply Forall_calls_bind; [exact H1|].
  intros [e' transformed] ->%H2. unfold transform.
  repeat calls_step.
  - destruct perr; repeat calls_step.
  - apply Forall_calls_for_each. intros. apply draw_segment_no_embedding_call.
Qed.



(** The keyword check passes exactly when no written keyword is a key. *)
Lemma splat_Ok (written : list string) (args : kwargs) (u : unit) :
  splat written args = Ok u ↔ Forall (λ k, k ∉ keywords args) written.
Proof.
  unfold splat. destruct u. case_decide as Hex.
  - split; [done|]. intros Hall.
    apply Exists_exists in Hex as (k & Hk & Hin).
    rewrite Forall_forall in Hall. by destruct (Hall k Hk).
  - split; [|done]. intros _. apply Forall_forall. intros k Hk Hin.
    apply Hex, Exists_exists. eauto.
Qed.

Lemma splat_Raise (written : list string) (args : kwargs) :
  Exists (λ k, k ∈ keywords args) written → splat written args = Raise TypeError.
Proof. intros Hex. unfold splat. by rewrite decide_True. Qed.

Lemma embedding_step_Ok data nn emb t0 e (transformed : list (point F)) :
  match emb with
  | Some embedding =>
      transformed ← transform embedding data; mret (embedding, transformed)
  | None => fit_transform (choose_2d_embedding data nn) data
  end = (t0, Ok (e, transformed)) ↔
  embedding_resolved (kwargs := kwargs) data nn emb t0 e transformed.
Proof.
  unfold embedding_resolved, transform, fit_transform. destruct emb as [given|].
  - split.
    + intros Hrun. run_inv. simplify_eq. by rewrite !app_nil_r.
    + intros (-> & Ht & ->). unfold lift. rewrite Ht. reflexivity.
  - split.
    + intros Hrun. run_inv. simplify_eq. by rewrite !app_nil_r.
    + intros [Ht ->]. unfold lift. rewrite Ht. reflexivity.
Qed.

Lemma memberships_step_Ok g data ms t labels :
  match ms with
  | Some memberships => mret memberships
  | None => lift (predict (state_model g) data)
  end = ((t, Ok labels) : W' (list Z)) ↔
  t = [] ∧ memberships_resolved g data ms labels.
Proof.
  unfold memberships_resolved. destruct ms as [given|].
  - rewrite ret_Ok. split; intros [? ?]; split; congruence.
  - by rewrite lift_Ok.
Qed.

(** The successful runs of the overlay branch, stage by stage. *)
Lemma plot_metastable_graph_overlay_Ok data g nn se ew emb ms args t r :
  plot_metastable_graph data g nn true se ew emb ms args = (t, Ok r) ↔
  ∃ e transformed t0 memberships c centers tc te c_states,
    embedding_resolved data nn emb t0 e transformed ∧
    memberships_resolved g data ms memberships ∧
    palette memberships = Ok c ∧
    Forall (λ k, k ∉ keywords args) ["c"; "linewidth"; "alpha"] ∧
    comprehension (state_center g e) (np_unique memberships) = (tc, Ok centers) ∧
    for_each (resolve_edge_weights g ew) (draw_edge centers.*1 centers.*2)
      = (te, Ok tt) ∧
    palette (np_unique memberships) = Ok c_states ∧
    t = t0
        ++ [subplots 2;
            scatter (axarr 0) (transformed.*1) (transformed.*2) (c_each c) None
              None (Some (of_Z 0)) (Some (of_Q 0.6)) None (Some args);
            set_ticks (axarr 0) x_axis []; set_ticks (axarr 0) y_axis [];
            despine]
        ++ tc ++ te
        ++ [scatter (axarr 1) (centers.*1) (centers.*2) (c_each c_states)
              (Some (node_size memberships <$> np_unique memberships))
              None (Some (of_Z 0)) None (Some 2) None;
            set_ticks (axarr 1) x_axis []; set_ticks (axarr 1) y_axis [];
            despine; add_subplot; tick_params;
            set_label plt x_axis "Dimension 1";
            set_label plt y_axis "Dimension 2"] ∧
    r = Some (c, e).
Proof.
  unfold plot_metastable_graph. cbn [negb]. split.
  - intros Hrun. run_inv. subst.
    match goal with
    | H : match emb with _ => _ end = _ |- _ => apply embedding_step_Ok in H
    end.
    match goal with
    | H : match ms with _ => _ end = _ |- _ =>
        apply memberships_step_Ok in H as [-> Hms]
    end.
    match goal with
    | H1 : palette ?m = Ok ?a, H2 : palette ?m = Ok ?b |- _ =>
        rewrite H1 in H2; injection H2 as <-
    end.
    match goal with H : splat _ _ = Ok _ |- _ => apply splat_Ok in H end.
    do 9 eexists. repeat (split; [eassumption|]).
    split; [|reflexivity]. simpl. rewrite ?app_nil_r, <- ?app_assoc. reflexivity.
  - intros (e & transformed & t0 & memberships & c & centers & tc & te & c_states
            & Hemb%embedding_step_Ok & Hms & Hc & Hkw & Hcenters & Hedges & Hcs
            & -> & ->).
    assert (Hms' := proj2 (memberships_step_Ok g data ms [] memberships)
                      (conj eq_refl Hms)).
    apply (splat_Ok _ _ tt) in Hkw.
    run_build. reflexivity.
Qed.

(** *** The graph plotter *)

Implicit Types (g : MetastableGraph F) (X Y : list F) (ms : option (list Z)).
Implicit Types (edges : list (State * State * F)).

Open Scope float_scope.

Lemma draw_edge_Ok X Y (s1 s2 : State) (w : F) t u :
  (draw_edge X Y (s1, s2, w) : W' unit) = (t, Ok u) ↔
  ∃ x1 x2 y1 y2,
    py_index X (index s1) = Some x1 ∧ py_index X (index s2) = Some x2 ∧
    py_index Y (index s1) = Some y1 ∧ py_index Y (index s2) = Some y2 ∧
    t = [plot (axarr 1) [x1; x2] [y1; y2] (Some "k-") None (Some 1%Z)
           (fmax (of_Q 0.5) (of_Z 7 * w));
         text (axarr 1) (fmin x1 x2 + fabs (x1 - x2) / of_Q 2)
           (fmin y1 y2 + fabs (y1 - y2) / of_Q 2) (ftrunc (w * of_Z 100))].
Proof.
  unfold draw_edge. destruct u. split.
  - intros Hrun. run_inv. subst.
    repeat match goal with
    | H : of_option _ ?o = Ok _ |- _ => destruct o eqn:?; simpl in H; simplify_eq
    end.
    eauto 10.
  - intros (x1 & x2 & y1 & y2 & Hx1 & Hx2 & Hy1 & Hy2 & ->).
    rewrite Hx1, Hx2, Hy1, Hy2. reflexivity.
Qed.


Lemma for_each_draw_edge_observed X Y edges te :
  for_each edges (draw_edge X Y) = ((te, Ok tt) : W' unit) →
  plot_linewidths (axarr 1) te
    = (λ '(_, _, weight), fmax (of_Q 0.5) (of_Z 7 * weight)) <$> edges ∧
  scatter_sizes (axarr 1) te = [].
Proof.
  intros (ts & Hts & ->)%for_each_Ok.
  induction Hts as [|[[s1 s2] w] tx edges ts Hx _ IH]; [done|].
  apply draw_edge_Ok in Hx as (x1 & x2 & y1 & y2 & _ & _ & _ & _ & ->).
  destruct IH as [IH1 IH2]. simpl.
  unfold plot_linewidths, scatter_sizes in *. simpl.
  by rewrite IH1, IH2.
Qed.

Lemma embedding_calls_unobserved ax t :
  Forall embedding_call t →
  plot_linewidths ax t = [] ∧ scatter_sizes ax t = [] ∧ plot_segments ax t = [].
Proof.
  induction 1 as [|c t Hc _ IH]; [done|].
  destruct c; try done; apply IH.
Qed.

Lemma embedding_resolved_calls data nn emb t0 e (transformed : list (point F)) :
  embedding_resolved data nn emb t0 e transformed → Forall embedding_call t0.
Proof.
  unfold embedding_resolved. destruct emb.
  - intros (_ & _ & ->). by repeat constructor.
  - intros [_ ->]. by repeat constructor.
Qed.

Lemma state_center_Ok g e (s : Z) (tx : list call') (p : point F) :
  state_center g e s = (tx, Ok p) ↔
  ∃ centroid projected,
    centroids (state_model g) s = Some centroid ∧
    lle_transform e centroid = Ok projected ∧
    py_index projected 0 = Some p ∧
    tx = [transform_call e centroid].
Proof.
  unfold state_center, transform. split.
  - intros Hrun. run_inv. subst.
    repeat match goal with
    | H : of_option _ ?o = Ok _ |- _ => destruct o eqn:?; simpl in H; simplify_eq
    end.
    eauto 10.
  - intros (centroid & projected & -> & Ht & Hp & ->).
    simpl. unfold lift. rewrite Ht. simpl. by rewrite Hp.
Qed.

Lemma state_centers_calls g e (states : list Z) (tc : list call')
    (centers : list (point F)) :
  comprehension (state_center g e) states = (tc, Ok centers) →
  Forall embedding_call tc ∧ length centers = length states.
Proof.
  intros Hrun. split; [|by eapply comprehension_length].
  apply comprehension_Ok in Hrun as (ts & Hts & ->).
  induction Hts as [|s tx p states ts centers Hs _ IH]; [constructor|].
  apply state_center_Ok in Hs as (? & ? & _ & _ & _ & ->).
  simpl. by constructor.
Qed.

(** The successful runs without the overlay. *)
Lemma plot_metastable_graph_plain_Ok data g nn se ew emb ms (args : kwargs) t r :
  plot_metastable_graph data g nn false se ew emb ms args = (t, Ok r) ↔
  ∃ e transformed t0 memberships c,
    embedding_resolved data nn emb t0 e transformed ∧
    memberships_resolved g data ms memberships ∧
    palette memberships = Ok c ∧
    Forall (λ k, k ∉ keywords args) ["c"; "linewidth"; "alpha"] ∧
    t = t0
        ++ [scatter plt (transformed.*1) (transformed.*2) (c_each c) None
              None (Some (of_Z 0)) (Some (of_Q 0.6)) None (Some args);
            set_label plt x_axis "Dimension 1";
            set_label plt y_axis "Dimension 2"] ∧
    r = None.
Proof.
  unfold plot_metastable_graph. cbn [negb]. split.
  - intros Hrun. run_inv. subst.
    match goal with
    | H : match emb with _ => _ end = _ |- _ => apply embedding_step_Ok in H
    end.
    match goal with
    | H : match ms with _ => _ end = _ |- _ =>
        apply memberships_step_Ok in H as [-> Hms]
    end.
    match goal with H : splat _ _ = Ok _ |- _ => apply splat_Ok in H end.
    do 5 eexists. repeat (split; [eassumption|]).
    split; [|reflexivity]. simpl. rewrite ?app_nil_r, <- ?app_assoc. reflexivity.
  - intros (e & transformed & t0 & memberships & c
            & Hemb%embedding_step_Ok & Hms & Hc & Hkw & -> & ->).
    assert (Hms' := proj2 (memberships_step_Ok g data ms [] memberships)
                      (conj eq_refl Hms)).
    apply (splat_Ok _ _ tt) in Hkw.
    run_build. reflexivity.
Qed.


(** What the overlay run hands to the drawing calls of the lower panel. *)
Lemma overlay_observed data g nn se ew emb ms (args : kwargs) t r :
  plot_metastable_graph data g nn true se ew emb ms args = (t, Ok r) →
  ∃ memberships,
    memberships_resolved g data ms memberships ∧
    scatter_sizes (axarr 1) t
      = [Some (node_size memberships <$> np_unique memberships)] ∧
    plot_linewidths (axarr 1) t
      = (λ '(_, _, weight), fmax (of_Q 0.5) (of_Z 7 * weight))
          <$> resolve_edge_weights g ew.
Proof.
  intros (e & transformed & t0 & memberships & c & centers & tc & te & c_states
          & Hemb & Hms & Hc & Hkw & Hcenters & Hedges & Hcs & -> & ->)
         %plot_metastable_graph_overlay_Ok.
  exists memberships. split; [done|].
  apply embedding_resolved_calls, (embedding_calls_unobserved (axarr 1))
    in Hemb as (Hp0 & Hs0 & _).
  apply state_centers_calls in Hcenters as [Hcalls _].
  apply (embedding_calls_unobserved (axarr 1)) in Hcalls as (Hp1 & Hs1 & _).
  apply for_each_draw_edge_observed in Hedges as [Hp2 Hs2].
  unfold scatter_sizes, plot_linewidths in *.
  rewrite !omap_app, Hp0, Hs0, Hp1, Hs1, Hp2, Hs2. simpl.
  by rewrite app_nil_r.
Qed.

Lemma memberships_step_outcome g data ms memberships memberships' :
  memberships_resolved g data ms memberships →
  outcome (match ms with
           | Some memberships => mret memberships
           | None => lift (predict (state_model g) data)
           end : W' (list Z)) = Ok memberships' →
  memberships' = memberships.
Proof.
  unfold memberships_resolved, outcome. destruct ms as [given|]; simpl.
  - by intros -> [= <-].
  - by intros -> [= <-].
Qed.

(** Every call of an overlay run, completed or not, is as the lower
    panel requires. *)
Lemma overlay_calls_as_specified data g nn se ew emb ms (args : kwargs) memberships :
  memberships_resolved g data ms memberships →
  Forall (lower_panel_call memberships (resolve_edge_weights g ew))
         (calls (plot_metastable_graph data g nn true se ew emb ms args)).
Proof.
  intros Hms. unfold plot_metastable_graph. cbn [negb].
  apply Forall_calls_bind.
  { destruct emb; unfold transform, fit_transform; repeat calls_step. }
  intros [e transformed] _.
  apply Forall_calls_bind; [destruct ms; calls_step|].
  intros memberships' ->%(memberships_step_outcome _ _ _ _ _ Hms).
  repeat calls_step.
  - apply Forall_calls_emit. intros [=].
  - apply Forall_calls_comprehension. intros s _.
    unfold state_center, transform. repeat calls_step.
  - apply Forall_calls_for_each. intros [[s1 s2] w] Hin.
    unfold draw_edge. repeat calls_step.
    apply Forall_calls_emit. intros _. by exists s1, s2, w.
  - apply Forall_calls_emit. intros _. reflexivity.
Qed.

(** C4.  With the overlay enabled, every [scatter] on the lower panel
    receives one marker size per state present in the memberships, and
    for a state with [k] members out of [N] points that size is
    [5000 * ln(1 + k/N)]; every [plot] on the lower panel has line width
    [max(0.5, 7 * w)] for a configured edge of weight [w].  In a run that
    completes there is exactly one such [scatter], and the [plot] calls
    are one per configured edge, in order. *)
Theorem overlay_node_sizes_and_edge_widths
    data g nn se ew emb ms (args : kwargs) memberships :
  memberships_resolved g data ms memberships →
  let states := np_unique memberships in
  let edges := resolve_edge_weights g ew in
  let size state :=
    let k := count_eq memberships state in
    let N := length memberships in
    of_Z 5000 * flog (of_Z 1 + of_Z (Z.of_nat k) / of_Z (Z.of_nat N)) in
  let width (item : State * State * F) := fmax (of_Q 0.5) (of_Z 7 * item.2) in
  (∀ state, state ∈ states ↔ state ∈ memberships) ∧
  NoDup states ∧
  (∀ state, state ∈ states →
            (1 ≤ count_eq memberships state ≤ length memberships)%nat) ∧
  Forall (lower_panel_call memberships edges)
         (calls (plot_metastable_graph data g nn true se ew emb ms args)) ∧
  ∀ t r,
    plot_metastable_graph data g nn true se ew emb ms args = (t, Ok r) →
    scatter_sizes (axarr 1) t = [Some (size <$> states)] ∧
    plot_linewidths (axarr 1) t = width <$> edges.
Proof.
  intros Hms states edges size width.
  split; [apply elem_of_np_unique|]. split; [apply NoDup_np_unique|].
  split.
  { intros state Hstate. apply count_eq_bounds. by apply elem_of_np_unique. }
  split; [by apply overlay_calls_as_specified|].
  intros t r (memberships' & Hms' & Hsizes & Hwidths)%overlay_observed.
  assert (memberships' = memberships) as ->.
  { unfold memberships_resolved in *. destruct ms; congruence. }
  split; [exact Hsizes|]. rewrite Hwidths.
  apply list_fmap_ext. by intros i [[s1 s2] w] _.
Qed.

(** C9 (amended).  An empty [edge_weights] argument is replaced by the
    graph's own [edge_weights] and a non-empty one is kept; the edges
    drawn are those of the resulting [edge_weights].  The [state_edges]
    argument is rebound on the same condition, but the rebound value is
    never read: with or without the overlay, the run is the same for
    every [state_edges] argument. *)
Theorem edge_weights_fall_back_state_edges_unread g se ew :
  resolve_state_edges g se
    = match se with [] => graph_state_edges g | _ :: _ => se end ∧
  resolve_edge_weights g ew
    = match ew with [] => graph_edge_weights g | _ :: _ => ew end ∧
  (∀ data nn pe emb ms (args : kwargs) se',
     plot_metastable_graph data g nn pe se ew emb ms args
     = plot_metastable_graph data g nn pe se' ew emb ms args) ∧
  ∀ data nn emb ms (args : kwargs) t r,
    plot_metastable_graph data g nn true se ew emb ms args = (t, Ok r) →
    ∃ e memberships (tc : list call') centers (te : list call'),
      comprehension (state_center g e) (np_unique memberships) = (tc, Ok centers) ∧
      for_each (match ew with [] => graph_edge_weights g | _ :: _ => ew end)
               (draw_edge (centers.*1) (centers.*2)) = (te, Ok tt) ∧
      plot_linewidths (axarr 1) t = plot_linewidths (axarr 1) te ∧
      plot_segments (axarr 1) t = plot_segments (axarr 1) te ∧
      length (plot_linewidths (axarr 1) t)
        = length (match ew with [] => graph_edge_weights g | _ :: _ => ew end).
Proof.
  assert (Hew : resolve_edge_weights g ew
                = match ew with [] => graph_edge_weights g | _ :: _ => ew end)
    by (by destruct ew).
  split; [by destruct se|]. split; [done|]. split; [reflexivity|].
  intros data nn emb ms args t r Hrun.
  destruct (overlay_observed _ _ _ _ _ _ _ _ _ _ Hrun) as (ms' & Hms' & _ & Hw).
  apply plot_metastable_graph_overlay_Ok in Hrun
    as (e & transformed & t0 & memberships & c & centers & tc & te & c_states
        & Hemb & Hms & Hc & Hkw & Hcenters & Hedges & Hcs & -> & ->).
  rewrite Hew in *. exists e, memberships, tc, centers, te.
  split; [done|]. split; [done|].
  apply embedding_resolved_calls, (embedding_calls_unobserved (axarr 1))
    in Hemb as (_ & _ & Hs0).
  apply state_centers_calls in Hcenters as [Hcalls _].
  apply (embedding_calls_unobserved (axarr 1)) in Hcalls as (_ & _ & Hs1).
  apply for_each_draw_edge_observed in Hedges as [Hp _].
  split; [by rewrite Hw, Hp|]. split; [|by rewrite Hw, length_fmap].
  unfold plot_segments in *. rewrite !omap_app, Hs0, Hs1. simpl.
  by rewrite app_nil_r.
Qed.




Lemma bind_Raise_r {A B} (m : W' A) (f : A → W' B) t1 a t2 err :
  m = (t1, Ok a) → f a = (t2, Raise err) → m ≫= f = (t1 ++ t2, Raise err).
Proof. intros -> Hf. unfold mbind, W_bind. by rewrite Hf. Qed.

Lemma bind_Raise_l {A B} (m : W' A) (f : A → W' B) t1 err :
  m = (t1, Raise err) → m ≫= f = (t1, Raise err).
Proof. by intros ->. Qed.



(** *** The transition plotter *)

Lemma py_range_seq (a b : nat) :
  py_range (Z.of_nat a) (Z.of_nat b) = Z.of_nat <$> seq a (b - a).
Proof.
  unfold py_range. replace (Z.to_nat (Z.of_nat b - Z.of_nat a)) with (b - a)%nat by lia.
  assert (seq a (b - a) = Nat.add a <$> seq 0 (b - a)) as ->
    by (rewrite fmap_add_seq; f_equal; lia).
  rewrite <- list_fmap_compose.
  apply list_fmap_ext. intros i x _. simpl. lia.
Qed.

Lemma draw_segment_drawn (interp_mean : list (point F)) (i : Z) (p q : point F) :
  py_index interp_mean (i - 1) = Some p → py_index interp_mean i = Some q →
  (draw_segment interp_mean i : W' unit)
  = ([plot plt [p.1; q.1] [p.2; q.2] None (Some "black"%string) None (of_Z 3)],
     Ok tt).
Proof. unfold draw_segment. by intros -> ->. Qed.

(** The segment loop from position [a] on: it never raises, and draws
    the segment from position [i - 1] to position [i] for each [i]. *)
Lemma segment_loop (interp_mean : list (point F)) (a n : nat) :
  (1 ≤ a)%nat → (a + n ≤ length interp_mean)%nat →
  ∃ ts : list call',
    for_each (Z.of_nat <$> seq a n) (draw_segment interp_mean) = (ts, Ok tt) ∧
    Forall2 (λ i segment, ∃ p q, interp_mean !! (i - 1)%nat = Some p ∧
                                  interp_mean !! i = Some q ∧ segment = (p, q))
            (seq a n) (plot_segments plt ts).
Proof.
  revert a. induction n as [|n IH]; intros a Ha Hlen.
  - exists []. split; [reflexivity|constructor].
  - destruct (IH (S a)) as (ts & Hts & Hsegs); [lia..|].
    destruct (lookup_lt_is_Some_2 interp_mean (a - 1)) as [[p1 p2] Hp]; [lia|].
    destruct (lookup_lt_is_Some_2 interp_mean a) as [[q1 q2] Hq]; [lia|].
    exists (plot plt [p1; q1] [p2; q2] None (Some "black"%string) None (of_Z 3) :: ts).
    split.
    + cbn [seq fmap list_fmap for_each]. apply bind_Ok.
      exists [plot plt [p1; q1] [p2; q2] None (Some "black"%string) None (of_Z 3)],
        tt, ts.
      split; [|by split].
      apply (draw_segment_drawn _ _ (p1, p2) (q1, q2)).
      * rewrite py_index_nonneg by lia. rewrite <- Hp. f_equal. lia.
      * rewrite py_index_nonneg by lia. by rewrite Nat2Z.id.
    + cbn [seq]. simpl. constructor; [|done]. eauto.
Qed.

(** The successful runs of the transition plotter, stage by stage. *)
Lemma plot_transition_model_Ok
    data (tm : TransitionModel F) nn emb colors perr tps (args : kwargs)
    cmap nl t r :
  plot_transition_model data tm nn emb colors perr tps args cmap nl = (t, Ok r) →
  ∃ timepoints e transformed t0 means interp_mean (tk ts : list call'),
    match tps with
    | Some given => timepoints = given
    | None => ∃ grid, default_timepoints = Ok grid ∧ timepoints = of_Q <$> grid
    end ∧
    embedding_resolved data nn emb t0 e transformed ∧
    mean tm timepoints = Ok means ∧
    lle_transform e means = Ok interp_mean ∧
    ("color" ∉ keywords args) ∧
    plot_segments plt tk = [] ∧
    for_each (py_range 1 (Z.of_nat (length interp_mean)))
             (draw_segment interp_mean) = (ts, Ok tt) ∧
    t = t0 ++ [transform_call e means] ++ tk
        ++ [scatter plt (transformed.*1) (transformed.*2) (c_named colors) None
              None None None None (Some args);
            scatter plt (interp_mean.*1) (interp_mean.*2) (c_named "black") None
              (Some (5, 2)%Z) None None None None]
        ++ ts
        ++ [set_label plt x_axis "Dimension 1"; set_label plt y_axis "Dimension 2";
            set_ticks plt x_axis []; set_ticks plt y_axis []; despine] ∧
    r = e.
Proof.
  unfold plot_transition_model, transform. intros Hrun. run_inv. subst.
  match goal with
  | H : match emb with _ => _ end = _ |- _ => apply embedding_step_Ok in H
  end.
  match goal with
  | H : match tps with _ => _ end = (?t, Ok ?tp) |- _ =>
      assert (Htps : t = [] ∧
                match tps with
                | Some given => tp = given
                | None => ∃ grid, default_timepoints = Ok grid ∧ tp = of_Q <$> grid
                end);
      [ destruct tps; run_inv; subst; [by split|split; [done|eauto]] |];
      clear H; destruct Htps as [-> Htps]
  end.
  match goal with
  | H : (if perr then _ else _) = (?t, Ok _) |- _ =>
      assert (Hk : plot_segments plt t = []);
      [ destruct perr; unfold transform in H; run_inv; subst; reflexivity |];
      clear H
  end.
  match goal with
  | H : splat _ _ = Ok _ |- _ => apply splat_Ok in H; rewrite Forall_singleton in H
  end.
  do 8 eexists. repeat (split; [eassumption|]).
  split; [|reflexivity]. simpl. rewrite ?app_nil_r, <- ?app_assoc. reflexivity.
Qed.

(** C7.  The path drawn over a projected mean trajectory of [m >= 1]
    positions is made of exactly [m - 1] line segments, and the [i]-th of
    them joins the projected mean at timepoint [i - 1] to the one at
    timepoint [i]: sequence order, whatever the positions are. *)
Theorem trajectory_path_follows_timepoint_order
    data (tm : TransitionModel F) nn emb colors perr tps (args : kwargs)
    cmap nl t r :
  plot_transition_model data tm nn emb colors perr tps args cmap nl = (t, Ok r) →
  ∃ timepoints e means interp_mean,
    match tps with
    | Some given => timepoints = given
    | None => ∃ grid, default_timepoints = Ok grid ∧ timepoints = of_Q <$> grid
    end ∧
    mean tm timepoints = Ok means ∧
    lle_transform e means = Ok interp_mean ∧
    let m := length interp_mean in
    let segments := plot_segments plt t in
    ((1 ≤ m)%nat → (length segments + 1)%nat = m) ∧
    ∀ i : nat, (1 ≤ i < m)%nat →
      ∃ p q, interp_mean !! (i - 1)%nat = Some p ∧ interp_mean !! i = Some q ∧
             segments !! (i - 1)%nat = Some (p, q).
Proof.
  intros (timepoints & e & transformed & t0 & means & interp_mean & tk & ts
          & Htps & Hemb & Hmeans & Hinterp & _ & Hk & Hts & -> & ->)
         %plot_transition_model_Ok.
  exists timepoints, e, means, interp_mean.
  split; [done|]. split; [done|]. split; [done|]. cbn zeta.
  apply embedding_resolved_calls, (embedding_calls_unobserved plt)
    in Hemb as (_ & _ & Hs0).
  assert (Hsegs : plot_segments plt
            (t0 ++ [transform_call e means] ++ tk
             ++ [scatter plt (transformed.*1) (transformed.*2) (c_named colors)
                   None None None None None (Some args);
                 scatter plt (interp_mean.*1) (interp_mean.*2) (c_named "black")
                   None (Some (5, 2)%Z) None None None None]
             ++ ts
             ++ [set_label plt x_axis "Dimension 1";
                 set_label plt y_axis "Dimension 2";
                 set_ticks plt x_axis []; set_ticks plt y_axis []; despine])
          = plot_segments plt ts).
  { unfold plot_segments in *. rewrite !omap_app, Hs0, Hk. simpl.
    by rewrite app_nil_r. }
  rewrite Hsegs. clear Hsegs.
  destruct (length interp_mean) as [|m'] eqn:Hm.
  { split; intros; lia. }
  change 1 with (Z.of_nat 1) in Hts. rewrite py_range_seq in Hts.
  destruct (segment_loop interp_mean 1 (S m' - 1)) as (ts' & Hts' & Hall);
    [lia..|].
  rewrite Hts in Hts'. injection Hts' as <-.
  split.
  - intros _. apply Forall2_length in Hall. rewrite length_seq in Hall. lia.
  - intros i Hi.
    assert (Hseq : seq 1 (S m' - 1) !! (i - 1)%nat = Some i).
    { rewrite lookup_seq_lt by lia. f_equal. lia. }
    destruct (Forall2_lookup_l _ _ _ _ _ Hall Hseq) as (seg & Hseg & p & q & Hp & Hq & ->).
    eauto.
Qed.

Lemma head_calls_bind {A B} (m : W' A) (f : A → W' B) (c : call') :
  head (calls m) = Some c → head (calls (m ≫= f)) = Some c.
Proof.
  destruct m as [[|c' t] [a|err]]; unfold calls, mbind, W_bind; simpl; try done.
  by destruct (f a).
Qed.

Lemma calls_bind_silent {A B} (m : W' A) (f : A → W' B) (a : A) :
  m = ([], Ok a) → calls (m ≫= f) = calls (f a).
Proof. intros ->. unfold calls, mbind, W_bind. by destruct (f a). Qed.

Lemma head_calls_fit_transform e data :
  head (calls (fit_transform (kwargs := kwargs) e data))
  = Some (fit_transform_call e data).
Proof.
  unfold fit_transform, calls, emit, lift, mbind, W_bind.
  by destruct (lle_fit_transform e data).
Qed.

(** C8.  With an embedding supplied by the caller, neither plotter ever
    calls [fit_transform]: every call to an embedding method is a
    [transform] on the supplied object, and the embedding handed back is
    that object.  With no embedding supplied, the first call fits a
    freshly chosen embedding on the data. *)
Theorem supplied_embedding_is_only_transformed
    data g (tm : TransitionModel F) nn pe se ew e ms (args : kwargs)
    colors perr tps cmap nl :
  let graph_run emb := plot_metastable_graph data g nn pe se ew emb ms args in
  let transition_run emb :=
    plot_transition_model data tm nn emb colors perr tps args cmap nl in
  Forall (transform_only e) (calls (graph_run (Some e))) ∧
  Forall (transform_only e) (calls (transition_run (Some e))) ∧
  (∀ c e', outcome (graph_run (Some e)) = Ok (Some (c, e')) → e' = e) ∧
  (∀ e', outcome (transition_run (Some e)) = Ok e' → e' = e) ∧
  head (calls (graph_run None))
    = Some (fit_transform_call (choose_2d_embedding data nn) data) ∧
  head (calls (transition_run None))
    = Some (fit_transform_call (choose_2d_embedding data nn) data).
Proof.
  intros graph_run transition_run. subst graph_run transition_run. cbn beta.
  split; [apply plot_metastable_graph_transform_only|].
  split; [apply plot_transition_model_transform_only|].
  split; [|split; [|split]].
  - intros c e' Hout. unfold outcome in Hout.
    destruct (plot_metastable_graph _ _ _ _ _ _ _ _ _) as [t r] eqn:Hrun.
    cbn [snd] in Hout. subst r. destruct pe.
    + apply plot_metastable_graph_overlay_Ok in Hrun
        as (e0 & ? & ? & ? & ? & ? & ? & ? & ? & (-> & _) & _ & _ & _ & _ & _ & _ & _
            & Hr).
      by injection Hr as _ ->.
    + apply plot_metastable_graph_plain_Ok in Hrun
        as (? & ? & ? & ? & ? & _ & _ & _ & _ & _ & Hr).
      discriminate Hr.
  - intros e' Hout. unfold outcome in Hout.
    destruct (plot_transition_model _ _ _ _ _ _ _ _ _ _) as [t r] eqn:Hrun.
    cbn [snd] in Hout. subst r.
    by apply plot_transition_model_Ok in Hrun
      as (? & e0 & ? & ? & ? & ? & ? & ? & _ & (-> & _) & _ & _ & _ & _ & _ & _ & Hr).
  - unfold plot_metastable_graph.
    apply head_calls_bind, head_calls_fit_transform.
  - unfold plot_transition_model.
    destruct default_timepoints_Ok as [grid Hgrid].
    destruct tps as [given|].
    + erewrite calls_bind_silent; [|reflexivity].
      apply head_calls_bind, head_calls_fit_transform.
    + erewrite calls_bind_silent; [|rewrite Hgrid; reflexivity].
      apply head_calls_bind, head_calls_fit_transform.
Qed.

(** *** The pseudotime gene clustermap *)

Close Scope float_scope.

Implicit Types (gene_names genes : list string) (colors : list color).
Implicit Types (m : gmap color (list string)).

(** The successful runs of the clustermap routine. *)
Lemma plot_transition_clustermap_Ok
    (data_array : matrix F) gene_names (pseudotimes : list F) n_clusters gradient
    (t : list call') m :
  let data_to_plot := (cluster_rows data_array gradient).1.1 in
  let scale := (cluster_rows data_array gradient).1.2 in
  let row_linkage := (cluster_rows data_array gradient).2 in
  let assignments := fcluster_maxclust row_linkage n_clusters in
  plot_transition_clustermap data_array gene_names pseudotimes n_clusters gradient
    = (t, Ok m) ↔
  ∃ row_colors r labels,
    palette assignments = Ok row_colors ∧
    arange_int 10 (shape0 data_array) (shape0 data_array / 10) = Ok r ∧
    mapM (py_index pseudotimes) r = Some labels ∧
    collect_genes gene_names 0 assignments ∅ = Ok m ∧
    t = [clustermap data_to_plot scale gene_names row_linkage row_colors;
         setp_fontsize ax_heatmap y_axis 5;
         set_ticks ax_heatmap x_axis r;
         set_ticklabels ax_heatmap x_axis labels;
         set_label ax_heatmap x_axis "Pseudotime";
         set_label ax_heatmap y_axis "Gene"].
Proof.
  unfold plot_transition_clustermap.
  destruct (cluster_rows data_array gradient) as [[data_to_plot scale] row_linkage].
  cbn [fst snd]. split.
  - intros Hrun. run_inv. subst.
    match goal with
    | H : of_option _ ?o = Ok _ |- _ => destruct o eqn:?; simpl in H; simplify_eq
    end.
    eauto 10.
  - intros (row_colors & r & labels & Hc & Hr & Hl & Hm & ->).
    assert (Hl' : of_option IndexError (mapM (py_index pseudotimes) r) = Ok labels)
      by (by rewrite Hl).
    run_build. by apply lift_Ok.
Qed.

Lemma tick_positions (n : Z) (r : list Z) :
  0 <= n →
  arange_int 10 n (n / 10) = Ok r →
  10 <= n ∧
  r = (λ i : nat, 10 + Z.of_nat i * (n / 10)) <$> seq 0 (length r) ∧
  Forall (λ pos, 10 <= pos < n) r ∧
  n <= 10 + Z.of_nat (length r) * (n / 10) ∧
  (length r ≤ 10)%nat ∧
  (length r = 10%nat ↔ 10 < n / 10 + n mod 10).
Proof.
  intros Hn0 [Hstep ->]%arange_int_Ok.
  destruct (Z.lt_ge_cases n 10) as [Hn|Hn].
  { exfalso. apply Hstep. Z.div_mod_to_equations. lia. }
  assert (Hs : 0 < n / 10) by (Z.div_mod_to_equations; lia).
  rewrite arange_len_int by done.
  set (c := - ((10 - n) / (n / 10))).
  assert (Hc : 0 <= c ∧ c <= 10 ∧ (c - 1) * (n / 10) < n - 10 <= c * (n / 10)
               ∨ n = 10 ∧ c = 0).
  { unfold c. Z.div_mod_to_equations. nia. }
  rewrite length_fmap, length_seq.
  split; [done|]. split; [done|]. split; [|split; [|split]].
  - apply Forall_forall. intros pos (i & -> & Hi%elem_of_seq)%list_elem_of_fmap.
    nia.
  - nia.
  - lia.
  - assert (c = 10 ↔ 10 < n / 10 + n mod 10); [|lia].
    unfold c in *. Z.div_mod_to_equations. nia.
Qed.

(** C3 (amended).  The heatmap x-axis is relabeled with the pseudotime
    values at the column positions [10, 10 + s, 10 + 2s, ...], all of
    those below the column count [n] and no other, where [s = n div 10]:
    evenly spaced, at most 10 of them, and exactly 10 exactly when
    [n div 10 + n mod 10 > 10]. *)
Theorem clustermap_xticks_evenly_spaced_from_ten
    (data_array : matrix F) gene_names (pseudotimes : list F) n_clusters gradient
    (t : list call') m :
  plot_transition_clustermap data_array gene_names pseudotimes n_clusters gradient
    = (t, Ok m) →
  let n := shape0 data_array in
  ∃ r labels,
    set_ticks ax_heatmap x_axis r ∈ t ∧
    set_ticklabels ax_heatmap x_axis labels ∈ t ∧
    Forall2 (λ pos label, py_index pseudotimes pos = Some label) r labels ∧
    10 <= n ∧
    r = (λ i : nat, 10 + Z.of_nat i * (n / 10)) <$> seq 0 (length r) ∧
    Forall (λ pos, 10 <= pos < n) r ∧
    n <= 10 + Z.of_nat (length r) * (n / 10) ∧
    (length r ≤ 10)%nat ∧
    (length r = 10%nat ↔ 10 < n / 10 + n mod 10).
Proof.
  intros (row_colors & r & labels & _ & Hr & Hl & _ & ->)
         %plot_transition_clustermap_Ok. cbn zeta.
  exists r, labels. split; [set_solver|]. split; [set_solver|].
  split; [by apply mapM_Some|].
  apply tick_positions; [unfold shape0; lia|done].
Qed.

(** The gene loop.  [gene_clusters] after the loop is the starting
    mapping with one [append] per assignment. *)
Lemma collect_genes_Ok gene_names (i : nat) (assignments : list Z) m0 m :
  collect_genes gene_names (Z.of_nat i) assignments m0 = Ok m ↔
  ∃ colors,
    Forall2 (λ cl c, STATE_COLORS cl = Some c) assignments colors ∧
    (length assignments ≤ length gene_names - i)%nat ∧
    m = foldl (λ acc '(c, g), append_gene acc c g) m0
          (zip colors (take (length assignments) (drop i gene_names))).
Proof.
  revert i m0. induction assignments as [|cl rest IH]; intros i m0; simpl.
  - split.
    + intros [= <-]. exists []. split; [constructor|]. split; [lia|done].
    + intros (colors & Hc & _ & ->). by inversion Hc.
  - rewrite py_index_nonneg by lia. rewrite Nat2Z.id.
    replace (Z.of_nat i + 1) with (Z.of_nat (S i)) by lia.
    destruct (STATE_COLORS cl) as [c|] eqn:Hcl; simpl.
    2:{ split; [done|]. intros (colors & Hc & _). inversion Hc; congruence. }
    destruct (gene_names !! i) as [g|] eqn:Hg; simpl.
    2:{ split; [done|]. intros (_ & _ & Hlen & _).
        apply lookup_ge_None in Hg. lia. }
    unfold mbind, result_bind. rewrite IH.
    assert (Hdrop : drop i gene_names = g :: drop (S i) gene_names)
      by (by apply drop_S).
    apply lookup_lt_Some in Hg as Hi.
    split.
    + intros (colors & Hc & Hlen & ->). exists (c :: colors).
      split; [by constructor|]. split; [lia|]. by rewrite Hdrop.
    + intros (colors & Hc & Hlen & ->).
      inversion Hc as [|? c' ? colors' Hcl' Hrest]; subst.
      exists colors'. split; [done|]. split; [lia|].
      rewrite Hdrop. simpl. congruence.
Qed.

Lemma foldl_append_gene_lookup (pairs : list (color * string)) m0 (c : color) :
  default [] (foldl (λ acc '(c, g), append_gene acc c g) m0 pairs !! c)
  = default [] (m0 !! c) ++ (filter (λ p, p.1 = c) pairs).*2.
Proof.
  revert m0. induction pairs as [|[c' g] pairs IH]; intros m0; simpl.
  - by rewrite app_nil_r.
  - rewrite IH. unfold append_gene. rewrite filter_cons. simpl.
    destruct (decide (c' = c)) as [->|Hne].
    + rewrite lookup_insert_eq. simpl. by rewrite <- app_assoc.
    + by rewrite lookup_insert_ne.
Qed.

Lemma foldl_append_gene_dom (pairs : list (color * string)) m0 :
  dom (foldl (λ acc '(c, g), append_gene acc c g) m0 pairs)
  = dom m0 ∪ list_to_set (pairs.*1).
Proof.
  revert m0. induction pairs as [|[c g] pairs IH]; intros m0; simpl.
  - by rewrite union_empty_r_L.
  - rewrite IH. unfold append_gene. rewrite dom_insert_L.
    by rewrite (comm_L (∪) {[c]} (dom m0)), <- (assoc_L (∪)).
Qed.

Lemma NoDup_snd_functional {A B} (l : list (A * B)) (a1 a2 : A) (b : B) :
  NoDup (l.*2) → (a1, b) ∈ l → (a2, b) ∈ l → a1 = a2.
Proof.
  induction l as [|[a b'] l IH]; intros Hnd H1 H2.
  - by apply elem_of_nil in H1.
  - simpl in Hnd. apply NoDup_cons in Hnd as [Hb Hnd].
    assert (Hin : ∀ x, (x, b) ∈ l → b ∈ l.*2).
    { intros x Hx. apply list_elem_of_fmap. by exists (x, b). }
    apply elem_of_cons in H1, H2.
    destruct H1 as [E1|H1], H2 as [E2|H2].
    + congruence.
    + injection E1 as -> ->. exfalso. eauto.
    + injection E2 as -> ->. exfalso. eauto.
    + eauto.
Qed.

(** C6 (amended).  The key set of the returned mapping is the set of
    distinct palette colours of the flat-cluster assignments, and the
    gene names are distributed by position: the name at position [j]
    (for each clustered gene [j]) goes to the value list keyed by the
    palette colour of assignment [j], each value list holding the names
    of its colour in input order.  Hence, when the names of the
    clustered genes are pairwise distinct, every one of them appears in
    exactly one value list, once. *)
Theorem gene_clusters_distribute_names_by_position
    (data_array : matrix F) gene_names (pseudotimes : list F) n_clusters gradient
    (t : list call') m :
  plot_transition_clustermap data_array gene_names pseudotimes n_clusters gradient
    = (t, Ok m) →
  let assignments :=
    fcluster_maxclust (cluster_rows data_array gradient).2 n_clusters in
  ∃ colors,
    Forall2 (λ cl c, STATE_COLORS cl = Some c) assignments colors ∧
    (length assignments ≤ length gene_names)%nat ∧
    let genes := take (length assignments) gene_names in
    dom m = list_to_set colors ∧
    (∀ c l, m !! c = Some l →
            l = (filter (λ p, p.1 = c) (zip colors genes)).*2) ∧
    (∀ (j : nat) gene, genes !! j = Some gene →
       ∃ c l, colors !! j = Some c ∧ m !! c = Some l ∧ gene ∈ l) ∧
    (NoDup genes →
       (∀ gene c1 c2 l1 l2, m !! c1 = Some l1 → m !! c2 = Some l2 →
                         gene ∈ l1 → gene ∈ l2 → c1 = c2) ∧
       (∀ c l, m !! c = Some l → NoDup l)).
Proof.
  intros (row_colors & r & labels & _ & _ & _ & Hm & _)
         %plot_transition_clustermap_Ok. cbn zeta.
  change 0 with (Z.of_nat 0) in Hm.
  apply collect_genes_Ok in Hm as (colors & Hc & Hlen & ->).
  rewrite drop_0, Nat.sub_0_r in *.
  set (assignments := fcluster_maxclust _ n_clusters) in *.
  set (genes := take (length assignments) gene_names).
  set (pairs := zip colors genes).
  assert (Hlc : length colors = length assignments)
    by (symmetry; by eapply Forall2_length).
  assert (Hlg : length genes = length assignments)
    by (unfold genes; by rewrite length_take_le).
  assert (Hfst : pairs.*1 = colors) by (apply fst_zip; lia).
  assert (Hsnd : pairs.*2 = genes) by (apply snd_zip; lia).
  assert (Hlook : ∀ c l,
            foldl (λ acc '(c, g), append_gene acc c g) ∅ pairs !! c = Some l →
            l = (filter (λ p, p.1 = c) pairs).*2).
  { intros c l Hl. pose proof (foldl_append_gene_lookup pairs ∅ c) as Hd.
    rewrite Hl, lookup_empty in Hd. exact Hd. }
  assert (Hmem : ∀ gene c l, l = (filter (λ p, p.1 = c) pairs).*2 →
                          gene ∈ l ↔ (c, gene) ∈ pairs).
  { intros gene c l Hl. rewrite Hl, list_elem_of_fmap. split.
    - intros ([c' gene'] & Hg & [Hp Hin]%list_elem_of_filter).
      simpl in Hg, Hp. by rewrite Hg, <- Hp.
    - intros Hin. exists (c, gene). split; [done|]. by apply list_elem_of_filter. }
  exists colors. split; [done|]. split; [done|].
  split; [|split; [done|split]].
  - by rewrite foldl_append_gene_dom, dom_empty_L, union_empty_l_L, Hfst.
  - intros j gene Hg.
    destruct (lookup_lt_is_Some_2 colors j) as [c Hcj].
    { apply lookup_lt_Some in Hg. lia. }
    assert (Hin : (c, gene) ∈ pairs).
    { apply (list_elem_of_lookup_2 _ j). apply lookup_zip_with_Some. eauto. }
    assert (Hdom : c ∈ dom (foldl (λ acc '(c, g), append_gene acc c g) ∅ pairs)).
    { rewrite foldl_append_gene_dom, Hfst. apply elem_of_union_r.
      apply elem_of_list_to_set. by eapply list_elem_of_lookup_2. }
    apply elem_of_dom in Hdom as [l Hl].
    exists c, l. split; [done|]. split; [done|].
    by apply (Hmem gene c l (Hlook c l Hl)).
  - intros Hnd. split.
    + intros gene c1 c2 l1 l2 H1 H2 Hg1 Hg2.
      apply (Hmem gene c1 l1 (Hlook _ _ H1)) in Hg1.
      apply (Hmem gene c2 l2 (Hlook _ _ H2)) in Hg2.
      apply (NoDup_snd_functional pairs c1 c2 gene); [by rewrite Hsnd|done..].
    + intros c l Hl%Hlook. rewrite Hl.
      apply (sublist_NoDup _ (pairs.*2)); [by rewrite Hsnd|].
      apply fmap_sublist, sublist_filter.
Qed.

End PlotterFacts.

(** ** Concrete runs *)

Open Scope string_scope.

(** C3, as stated, fails for a heatmap of 100 columns: the ticks are the
    nine positions [10, 20, ..., 90]. *)
Lemma clustermap_hundred_columns_nine_ticks :
  ∃ t m,
    Toy.clustermap_run ["g1"; "g2"; "g3"] = (t, Ok m) ∧
    set_ticks ax_heatmap x_axis [10; 20; 30; 40; 50; 60; 70; 80; 90] ∈ t ∧
    ¬ ∃ r, set_ticks ax_heatmap x_axis r ∈ t ∧ length r = 10%nat.
Proof.
  eexists _, _. split; [vm_compute; reflexivity|]. split.
  - do 2 apply list_elem_of_further. apply list_elem_of_here.
  - intros (r & Hin & Hlen).
    repeat (apply elem_of_cons in Hin as [Hin|Hin]; [try discriminate Hin|]).
    + injection Hin as ->. discriminate Hlen.
    + by apply elem_of_nil in Hin.
Qed.

(** C6, as stated, fails for a gene-name list with a repeated name whose
    two genes fall in different clusters: the name is in two value lists. *)
Lemma repeated_gene_name_in_two_value_lists :
  ∃ t m,
    Toy.clustermap_run ["g"; "g"; "h"] = (t, Ok m) ∧
    ∃ c1 c2 l1 l2,
      c1 ≠ c2 ∧ m !! c1 = Some l1 ∧ m !! c2 = Some l2 ∧ "g" ∈ l1 ∧ "g" ∈ l2.
Proof.
  eexists _, _. split; [vm_compute; reflexivity|].
  exists "blue", "green", ["g"; "h"], ["g"].
  split; [discriminate|]. split; [vm_compute; reflexivity|].
  split; [vm_compute; reflexivity|]. split; apply list_elem_of_here.
Qed.

(** C9, as stated, fails for [state_edges]: two supplied edges, neither
    of them from state 0 to state 1, are not "used as given".  The one
    segment drawn is that of the graph's [edge_weights], from the centre
    of state 0 to the centre of state 1, and the run is the run without
    them. *)
Lemma supplied_state_edges_are_not_drawn :
  let supplied :=
    [(Build_State 1, Build_State 0); (Build_State 0, Build_State 0)] in
  let run := plot_metastable_graph Toy.data Toy.graph None true supplied []
               (Some Toy.fitted) (Some Toy.labels) ∅ in
  run = Toy.graph_run (Some Toy.labels) ∧
  ∃ t r, run = (t, Ok r) ∧
         plot_segments (axarr 1) t = [((0, 0), (1, 1))]%R.
Proof.
  intros supplied run. split; [reflexivity|].
  eexists _, _. split; [vm_compute; reflexivity|]. vm_compute. reflexivity.
Qed.


(** The default grid, at its fourth point. *)
Lemma default_timepoints_fourth_point :
  ∃ grid x, default_timepoints = Ok grid ∧ grid !! 3%nat = Some x ∧
            (x == 0.06 ∧ 0 <= x ∧ x < 1)%Q.
Proof.
  destruct default_timepoints_fifty_evenly_spaced as (grid & Hgrid & _ & Hpoints & _).
  assert (Hx : ∃ x, grid !! 3%nat = Some x).
  { rewrite default_timepoints_value in Hgrid. injection Hgrid as <-. by eexists. }
  destruct Hx as [x Hx]. exists grid, x. split; [done|]. split; [done|].
  destruct (Hpoints 3%nat x Hx) as (Heq & Hlo & Hhi).
  split; [|done]. rewrite Heq. reflexivity.
Defined.

(** Three of four points in state 0, one in state 1: the two node sizes,
    and the one edge of the graph drawn at width [max(0.5, 7 * 0.5)]. *)
Lemma overlay_sizes_three_to_one :
  ∃ t r,
    Toy.graph_run (Some Toy.labels) = (t, Ok r) ∧
    scatter_sizes (axarr 1) t
      = [Some [5000 * ln (1 + 3 / 4); 5000 * ln (1 + 1 / 4)]]%R ∧
    plot_linewidths (axarr 1) t = [Rmax (Q2R 0.5) (7 * (1 / 2))]%R.
Proof.
  assert (Hrun : ∃ t r, Toy.graph_run (Some Toy.labels) = (t, Ok r))
    by (eexists _, _; vm_compute; reflexivity).
  destruct Hrun as (t & r & Hrun). exists t, r. split; [exact Hrun|].
  destruct (overlay_node_sizes_and_edge_widths
              (kwargs := gmap string string) Toy.data Toy.graph None [] [] (Some Toy.fitted)
              (Some Toy.labels) ∅ Toy.labels eq_refl)
    as (_ & _ & _ & _ & Hdrawn).
  exact (Hdrawn t r Hrun).
Defined.


(** Three timepoints, three mean positions: two segments. *)
Lemma three_positions_two_segments :
  ∃ t r, Toy.transition_run = (t, Ok r) ∧
         (length (plot_segments plt t) + 1)%nat = 3%nat.
Proof.
  assert (Hrun : ∃ t r, Toy.transition_run = (t, Ok r))
    by (eexists _, _; vm_compute; reflexivity).
  destruct Hrun as (t & r & Hrun). exists t, r. split; [exact Hrun|].
  destruct (trajectory_path_follows_timepoint_order
              Toy.data Toy.diagonal None (Some Toy.fitted) "magenta" true
              (Some [0; 1 / 2; 1]%R) ∅ "Oranges" 4 t r Hrun)
    as (timepoints & e & means & interp_mean & -> & Hmeans & Hinterp & Hcount & _).
  injection Hmeans as <-.
  assert (Hm : length interp_mean = 3%nat).
  { cbv [lle_transform Toy.collaborators] in Hinterp.
    destruct (fit_state e); [|discriminate Hinterp].
    by injection Hinterp as <-. }
  rewrite Hm in Hcount. apply Hcount. lia.
Defined.

(** The caller's embedding is the one handed back by the graph plotter. *)
Lemma supplied_embedding_handed_back :
  ∃ c e', outcome (Toy.graph_run (Some Toy.labels)) = Ok (Some (c, e')) ∧
          e' = Toy.fitted.
Proof.
  assert (Hrun : ∃ c e', outcome (Toy.graph_run (Some Toy.labels))
                         = Ok (Some (c, e')))
    by (eexists _, _; vm_compute; reflexivity).
  destruct Hrun as (c & e' & Hrun). exists c, e'. split; [exact Hrun|].
  destruct (supplied_embedding_is_only_transformed
              (kwargs := gmap string string) (Collaborators0 := Toy.collaborators)
              Toy.data Toy.graph Toy.diagonal None true [] [] Toy.fitted
              (Some Toy.labels) ∅ "magenta" true None "Oranges" 4)
    as (_ & _ & Hback & _).
  exact (Hback c e' Hrun).
Defined.

(** No edge weights supplied: the one edge of the graph is drawn. *)
Lemma graph_edge_drawn_when_none_supplied :
  ∃ t r, Toy.graph_run (Some Toy.labels) = (t, Ok r) ∧
         length (plot_linewidths (axarr 1) t) = 1%nat.
Proof.
  assert (Hrun : ∃ t r, Toy.graph_run (Some Toy.labels) = (t, Ok r))
    by (eexists _, _; vm_compute; reflexivity).
  destruct Hrun as (t & r & Hrun). exists t, r. split; [exact Hrun|].
  destruct (edge_weights_fall_back_state_edges_unread
              (kwargs := gmap string string) (Collaborators0 := Toy.collaborators)
              Toy.graph [] []) as (_ & _ & _ & Hdrawn).
  destruct (Hdrawn Toy.data None (Some Toy.fitted) (Some Toy.labels) ∅ t r Hrun)
    as (_ & _ & _ & _ & _ & _ & _ & _ & _ & Hlen).
  exact Hlen.
Defined.


(** A hundred columns: the ticks found on the heatmap axis are at most
    ten, and start at column 10. *)
Lemma hundred_columns_at_most_ten_ticks :
  ∃ t m, Toy.clustermap_run ["g1"; "g2"; "g3"] = (t, Ok m) ∧
         ∃ r, set_ticks ax_heatmap x_axis r ∈ t ∧ (length r ≤ 10)%nat ∧
              Forall (λ pos, 10 <= pos < 100) r.
Proof.
  assert (Hrun : ∃ t m, Toy.clustermap_run ["g1"; "g2"; "g3"] = (t, Ok m))
    by (eexists _, _; vm_compute; reflexivity).
  destruct Hrun as (t & m & Hrun). exists t, m. split; [exact Hrun|].
  destruct (clustermap_xticks_evenly_spaced_from_ten
              Toy.expression ["g1"; "g2"; "g3"] Toy.pseudotimes 10 false t m Hrun)
    as (r & labels & Hticks & _ & _ & _ & _ & Hrange & _ & Hlen & _).
  exists r. split; [exact Hticks|]. split; [exact Hlen|]. exact Hrange.
Defined.

(** Three genes with distinct names in clusters 1, 2, 1: two keys. *)
Lemma three_genes_two_colours :
  ∃ t m, Toy.clustermap_run ["g1"; "g2"; "g3"] = (t, Ok m) ∧
         dom m = list_to_set ["blue"; "green"; "blue"].
Proof.
  assert (Hrun : ∃ t m, Toy.clustermap_run ["g1"; "g2"; "g3"] = (t, Ok m))
    by (eexists _, _; vm_compute; reflexivity).
  destruct Hrun as (t & m & Hrun). exists t, m. split; [exact Hrun|].
  destruct (gene_clusters_distribute_names_by_position
              Toy.expression ["g1"; "g2"; "g3"] Toy.pseudotimes 10 false t m Hrun)
    as (colors & Hcolors & _ & Hdom & _).
  rewrite Hdom. f_equal.
  apply (mapM_Some_2 STATE_COLORS) in Hcolors. by injection Hcolors.
Defined.

(** * Further properties of the plotting code *)

Close Scope string_scope.

(** ** The embedding selector, further *)

(** X1.  The neighbour count that [choose_2d_embedding] picks when the
    caller leaves it out is [int(0.8 * rows)], that is [4 * rows / 5]
    rounded down, and never reaches the number of rows: it lies between
    0 and the row count, strictly below it as soon as there is a row,
    and it is 0 exactly for data of at most one row.  The [modified]
    method is chosen exactly for fewer than 50 rows, [standard]
    otherwise. *)
Theorem choose_2d_embedding_neighbors_below_rows
    {F FitState : Type} (data : list (list F)) :
  let rows := shape0 data in
  let e := choose_2d_embedding (FitState := FitState) data None in
  n_neighbors e = py_int (inject_Z rows * 0.8) ∧
  n_neighbors e = (4 * rows) / 5 ∧
  0 <= n_neighbors e <= rows ∧
  (1 <= rows → n_neighbors e < rows) ∧
  (n_neighbors e = 0 ↔ rows <= 1) ∧
  (method e = modified ↔ rows < 50) ∧
  (method e = standard ↔ 50 <= rows).
Proof.
  intros rows e.
  assert (Hrows : 0 <= rows) by (unfold rows, shape0; lia).
  assert (Hn : n_neighbors e = (rows * 8) / 10).
  { unfold e, choose_2d_embedding. simpl. fold rows. apply py_int_tenths; lia. }
  split; [reflexivity|].
  rewrite Hn.
  split; [Z.div_mod_to_equations; lia|].
  split; [Z.div_mod_to_equations; lia|].
  split; [Z.div_mod_to_equations; lia|].
  split; [Z.div_mod_to_equations; lia|].
  unfold e, choose_2d_embedding. simpl. fold rows.
  destruct (Z.ltb_spec rows 50); split; split; (done || lia).
Qed.

(** ** The plotters, further *)

Section MorePlotterFacts.
Context {F color kwargs FitState : Type}.
Context `{FloatOps F} `{Countable color} `{!Collaborators F color FitState}.
Context `{!Keywords kwargs}.
#[local] Abbreviation W' := (W F color kwargs FitState).
#[local] Abbreviation call' := (call F color kwargs FitState).

Implicit Types (data : matrix F) (e : LLE FitState) (g : MetastableGraph F).
Implicit Types (t : list call') (X Y : list F) (ms : option (list Z)).

Lemma calls_bind_Ok {A B} (m : W' A) (f : A → W' B) t a :
  m = (t, Ok a) → calls (m ≫= f) = t ++ calls (f a).
Proof. intros ->. unfold calls, mbind, W_bind. by destruct (f a). Qed.

Lemma outcome_bind_Ok {A B} (m : W' A) (f : A → W' B) t a :
  m = (t, Ok a) → outcome (m ≫= f) = outcome (f a).
Proof. intros ->. unfold outcome, mbind, W_bind. by destruct (f a). Qed.

(** X2.  With no embedding supplied, the graph plotter fits the freshly
    chosen embedding once, on the data, and every later call to an
    embedding method is a [transform] on the embedding that the fit has
    left, which is also the one handed back; when the fit raises, nothing
    else is called. *)
Theorem graph_plotter_fits_fresh_embedding_once
    data g nn pe se ew ms (args : kwargs) :
  let fresh := choose_2d_embedding data nn in
  let run := plot_metastable_graph data g nn pe se ew None ms args in
  match lle_fit_transform fresh data with
  | Raise err => run = ([fit_transform_call fresh data], Raise err)
  | Ok (fitted, _) =>
      ∃ rest, calls run = fit_transform_call fresh data :: rest ∧
              Forall (transform_only fitted) rest ∧
              ∀ c e', outcome run = Ok (Some (c, e')) → e' = fitted
  end.
Proof.
  intros fresh run. subst run.
  destruct (lle_fit_transform fresh data) as [[fitted transformed]|err] eqn:Hfit.
  2:{ unfold plot_metastable_graph, fit_transform. fold fresh.
      unfold lift. rewrite Hfit. reflexivity. }
  assert (Hstep : fit_transform (kwargs := kwargs) fresh data
                  = ([fit_transform_call fresh data], Ok (fitted, transformed))).
  { unfold fit_transform, lift. rewrite Hfit. reflexivity. }
  unfold plot_metastable_graph. cbn zeta. fold fresh.
  erewrite calls_bind_Ok, outcome_bind_Ok by exact Hstep. cbn beta iota.
  eexists. split; [reflexivity|]. split.
  - apply Forall_calls_bind; [destruct ms; calls_step|]. intros memberships _.
    destruct pe; cbn [negb].
    + repeat calls_step.
      * apply Forall_calls_comprehension. intros.
        unfold state_center, transform. repeat calls_step.
      * apply Forall_calls_for_each. intros [[s1 s2] w] _.
        unfold draw_edge. repeat calls_step.
    + repeat calls_step.
  - intros c e' Hok. unfold outcome in Hok.
    match type of Hok with (?m).2 = _ => destruct m as [t r] eqn:Hrun end.
    cbn [snd] in Hok. subst r.
    destruct pe; cbn [negb] in Hrun; run_inv; by simplify_eq.
Qed.


(** X3.  With no embedding supplied, the transition plotter fits the
    freshly chosen embedding once, on the data, and every later call to
    an embedding method is a [transform] on the embedding that the fit
    has left, which is also the one handed back; when the fit raises,
    nothing else is called. *)
Theorem transition_plotter_fits_fresh_embedding_once
    data (tm : TransitionModel F) nn colors perr tps (args : kwargs) cmap nl :
  let fresh := choose_2d_embedding data nn in
  let run := plot_transition_model data tm nn None colors perr tps args cmap nl in
  match lle_fit_transform fresh data with
  | Raise err => run = ([fit_transform_call fresh data], Raise err)
  | Ok (fitted, _) =>
      ∃ rest, calls run = fit_transform_call fresh data :: rest ∧
              Forall (transform_only fitted) rest ∧
              ∀ e', outcome run = Ok e' → e' = fitted
  end.
Proof.
  intros fresh run. subst run.
  assert (Htps : ∃ timepoints,
            match tps with
            | Some timepoints => mret timepoints
            | None => grid ← lift default_timepoints; mret (of_Q <$> grid)
            end = (([], Ok timepoints) : W' (list F))).
  { destruct tps as [given|]; [by eexists|].
    destruct default_timepoints_Ok as [grid Hgrid]. rewrite Hgrid. by eexists. }
  destruct Htps as [timepoints Htps].
  destruct (lle_fit_transform fresh data) as [[fitted transformed]|err] eqn:Hfit.
  2:{ unfold plot_transition_model. cbn zeta. fold fresh.
      eapply (bind_Raise_r _ _ []); [exact Htps|].
      unfold fit_transform, lift. rewrite Hfit. reflexivity. }
  assert (Hstep : fit_transform (kwargs := kwargs) fresh data
                  = ([fit_transform_call fresh data], Ok (fitted, transformed))).
  { unfold fit_transform, lift. rewrite Hfit. reflexivity. }
  unfold plot_transition_model. cbn zeta. fold fresh.
  erewrite calls_bind_Ok, outcome_bind_Ok by exact Htps.
  erewrite calls_bind_Ok, outcome_bind_Ok by exact Hstep. cbn beta iota.
  eexists. split; [reflexivity|]. split.
  - unfold transform. repeat calls_step.
    + destruct perr; repeat calls_step.
    + apply Forall_calls_for_each. intros i _.
      unfold draw_segment. repeat calls_step.
  - intros e' Hok. unfold outcome in Hok.
    match type of Hok with (?m).2 = _ => destruct m as [t r] eqn:Hrun end.
    cbn [snd] in Hok. subst r. run_inv. by simplify_eq.
Qed.

(** X4.  A membership label without a palette entry makes the graph
    plotter raise [LookupError] before any point is drawn: without the
    overlay nothing at all has been drawn, with it only the empty
    two-panel figure has been created. *)
Theorem graph_plotter_unknown_label_raises
    data g nn pe se ew emb ms (args : kwargs) (t0 : list call')
    e transformed memberships label :
  embedding_resolved data nn emb t0 e transformed →
  memberships_resolved g data ms memberships →
  label ∈ memberships → STATE_COLORS label = None →
  plot_metastable_graph data g nn pe se ew emb ms args
  = (t0 ++ (if pe then [subplots 2] else []), Raise LookupError).
Proof.
  intros Hemb%embedding_step_Ok Hms Hin Hnone.
  assert (Hms' := proj2 (memberships_step_Ok (color := color) (kwargs := kwargs)
                           (FitState := FitState) g data ms [] memberships)
                    (conj eq_refl Hms)).
  assert (Hpal : palette memberships = Raise LookupError).
  { unfold palette. rewrite (mapM_None_2 STATE_COLORS); [done|].
    apply Exists_exists. eauto. }
  unfold plot_metastable_graph.
  eapply bind_Raise_r; [exact Hemb|]. cbn beta iota.
  eapply (bind_Raise_r _ _ []); [exact Hms'|].
  destruct pe; cbn [negb].
  - eapply (bind_Raise_r _ _ [subplots 2] tt []); [reflexivity|].
    apply bind_Raise_l. unfold lift. by rewrite Hpal.
  - apply bind_Raise_l. unfold lift. by rewrite Hpal.
Qed.


(** X5.  An edge end point with a negative index [-j], [1 <= j <= k], is
    not refused: Python counts from the end, so it is drawn at the node
    of the state at position [k - j] of the ascending present states; for
    index [-1] that is the largest label present. *)
Theorem negative_edge_index_counts_from_the_end
    g e (memberships : list Z) (tc : list call') (centers : list (point F))
    (s : State) (j : nat) :
  comprehension (state_center g e) (np_unique memberships) = (tc, Ok centers) →
  let states := np_unique memberships in
  let k := length states in
  (1 ≤ j ≤ k)%nat → index s = - Z.of_nat j →
  ∃ state (tx : list call') p,
    states !! (k - j)%nat = Some state ∧
    state_center g e state = (tx, Ok p) ∧
    py_index (centers.*1) (index s) = Some p.1 ∧
    py_index (centers.*2) (index s) = Some p.2 ∧
    (j = 1%nat → ∀ label, label ∈ memberships → label <= state).
Proof.
  intros Hcenters states k Hj Hs.
  assert (Hlen : length centers = k) by (by eapply comprehension_length).
  apply comprehension_Ok in Hcenters as (ts & Hts & _).
  destruct (lookup_lt_is_Some_2 states (k - j)) as [state Hstate]; [lia|].
  destruct (Forall3_lookup_l _ _ _ _ _ _ Hts Hstate) as (tx & p & _ & Hp & Hsc).
  exists state, tx, p. split; [done|]. split; [done|].
  assert (Hidx : ∀ {A} (l : list A), length l = k →
                 py_index l (index s) = l !! (k - j)%nat).
  { intros A l Hl. unfold py_index. rewrite Hs, Hl.
    destruct (Z.leb_spec 0 (- Z.of_nat j)); [lia|].
    destruct (Z.leb_spec (- Z.of_nat k) (- Z.of_nat j)); [|lia].
    f_equal. lia. }
  rewrite !Hidx by (by rewrite length_fmap).
  rewrite !list_lookup_fmap. unfold point in *. rewrite Hp.
  split; [done|]. split; [done|].
  intros -> label Hlabel%elem_of_np_unique.
  apply list_elem_of_lookup in Hlabel as [i Hi]. fold states in Hi.
  pose proof (lookup_lt_Some _ _ _ Hi).
  pose proof (ascending_gap states i (k - 1) label state
                (np_unique_sorted memberships) Hi Hstate ltac:(lia)).
  lia.
Qed.

Lemma embedding_calls_app (t1 t2 : list call') :
  embedding_calls (t1 ++ t2) = embedding_calls t1 ++ embedding_calls t2.
Proof. apply omap_app. Qed.

(** X6.  In an overlay run that completes, the embedding is asked to
    project the data once and then the centroid of each state present in
    the memberships, once each, in ascending order of the state labels. *)
Theorem overlay_projects_each_present_centroid_once
    data g nn se ew emb ms (args : kwargs) t r :
  plot_metastable_graph data g nn true se ew emb ms args = (t, Ok r) →
  ∃ (t0 : list call') e transformed memberships centroids_of_states,
    embedding_resolved data nn emb t0 e transformed ∧
    memberships_resolved g data ms memberships ∧
    Forall2 (λ state centroid, centroids (state_model g) state = Some centroid)
            (np_unique memberships) centroids_of_states ∧
    embedding_calls t = t0 ++ (transform_call e <$> centroids_of_states).
Proof.
  intros (e & transformed & t0 & memberships & c & centers & tc & te & c_states
          & Hemb & Hms & Hc & Hkw & Hcenters & Hedges & Hcs & -> & ->)
         %plot_metastable_graph_overlay_Ok.
  apply comprehension_Ok in Hcenters as (ts & Hts & ->).
  assert (Hcs' : ∃ cs,
            Forall2 (λ state centroid, centroids (state_model g) state = Some centroid)
                    (np_unique memberships) cs ∧
            concat ts = transform_call e <$> cs).
  { clear -Hts. induction Hts as [|state tx p states ts centers Hs _ IH].
    - by exists [].
    - destruct IH as (cs & Hcs & Hts').
      apply state_center_Ok in Hs as (centroid & ? & Hcentroid & _ & _ & ->).
      exists (centroid :: cs). split; [by constructor|].
      simpl. by rewrite Hts'. }
  destruct Hcs' as (cs & Hcs' & Htc).
  exists t0, e, transformed, memberships, cs.
  split; [done|]. split; [done|]. split; [done|].
  assert (Ht0 : embedding_calls t0 = t0).
  { unfold embedding_resolved in Hemb.
    destruct emb; [destruct Hemb as (_ & _ & ->)|destruct Hemb as [_ ->]]; done. }
  assert (Hte : embedding_calls te = []).
  { apply for_each_Ok in Hedges as (tes & Htes & ->).
    induction Htes as [|[[s1 s2] w] tx edges tes Hx _ IH]; [done|].
    apply draw_edge_Ok in Hx as (? & ? & ? & ? & _ & _ & _ & _ & ->).
    simpl. exact IH. }
  assert (Htc' : embedding_calls (transform_call e <$> cs : list call')
                 = transform_call e <$> cs).
  { clear. induction cs as [|c cs IH]; [done|].
    unfold embedding_calls in *. cbn. f_equal. exact IH. }
  rewrite Htc, !embedding_calls_app, Ht0, Htc', Hte. cbn. by rewrite app_nil_r.
Qed.


Lemma plot_segments_app ax (t1 t2 : list call') :
  plot_segments ax (t1 ++ t2) = plot_segments ax t1 ++ plot_segments ax t2.
Proof. apply omap_app. Qed.

Lemma text_labels_app ax (t1 t2 : list call') :
  text_labels ax (t1 ++ t2) = text_labels ax t1 ++ text_labels ax t2.
Proof. apply omap_app. Qed.

Lemma embedding_calls_no_text ax (t : list call') :
  Forall embedding_call t → text_labels ax t = [].
Proof.
  induction 1 as [|c t Hc _ IH]; [done|].
  destruct c; try done; apply IH.
Qed.

Lemma kdeplot_points_app (t1 t2 : list call') :
  kdeplot_points (t1 ++ t2) = kdeplot_points t1 ++ kdeplot_points t2.
Proof. apply omap_app. Qed.

(** X9.  Beyond the keyword check of its first scatter, the transition
    plotter adds no failure of its own: whenever the embedding and the
    transition model return and [scatter_plot_args] has no key [color],
    the call returns the embedding.  It then has drawn one segment less than there are mean
    positions (none for a trajectory of one position or none), one
    density over the projected samples followed by the projected data if
    [plot_errors] is set and none otherwise, and has asked the embedding
    for the projection of the means and, with [plot_errors], of the
    samples. *)
Theorem transition_plotter_returns_when_collaborators_do
    data (tm : TransitionModel F) nn emb colors perr tps (args : kwargs) cmap nl
    (t0 : list call') e transformed timepoints means interp_mean
    samples interp_samples :
  embedding_resolved data nn emb t0 e transformed →
  match tps with
  | Some given => timepoints = given
  | None => ∃ grid, default_timepoints = Ok grid ∧ timepoints = of_Q <$> grid
  end →
  mean tm timepoints = Ok means →
  lle_transform e means = Ok interp_mean →
  (perr = true →
   sample_along_timepoints tm timepoints (shape0 data) interp_mean true
     = Ok samples ∧
   lle_transform e samples = Ok interp_samples) →
  "color" ∉ keywords args →
  ∃ t,
    plot_transition_model data tm nn emb colors perr tps args cmap nl
      = (t, Ok e) ∧
    length (plot_segments plt t) = (length interp_mean - 1)%nat ∧
    kdeplot_points t
      = (if perr
         then [(interp_samples.*1 ++ transformed.*1,
                interp_samples.*2 ++ transformed.*2)]
         else []) ∧
    embedding_calls t
      = t0 ++ transform_call e means
              :: (if perr then [transform_call e samples] else []).
Proof.
  intros Hemb Htps Hmeans Hinterp Hdensity Hkw.
  assert (Hkw' : splat ["color"] args = Ok tt)
    by (by apply splat_Ok, Forall_singleton).
  assert (Ht0 : plot_segments plt t0 = [] ∧ kdeplot_points t0 = [] ∧
                embedding_calls t0 = t0).
  { unfold embedding_resolved in Hemb.
    destruct emb; [destruct Hemb as (_ & _ & ->)|destruct Hemb as [_ ->]]; done. }
  destruct Ht0 as (Hs0 & Hk0 & He0).
  apply embedding_step_Ok in Hemb.
  assert (Htps' :
    match tps with
    | Some timepoints => mret timepoints
    | None => grid ← lift default_timepoints; mret (of_Q <$> grid)
    end = (([], Ok timepoints) : W' (list F))).
  { destruct tps as [given|]; [by subst|].
    destruct Htps as (grid & -> & ->). reflexivity. }
  assert (Htm : transform (kwargs := kwargs) e means
                = ([transform_call e means], Ok interp_mean)).
  { unfold transform, lift. rewrite Hinterp. reflexivity. }
  set (tk := if perr
             then [transform_call e samples;
                   kdeplot (interp_samples.*1 ++ transformed.*1)
                     (interp_samples.*2 ++ transformed.*2) nl cmap]
             else [] : list call').
  assert (Hk :
    (if perr
     then samples ← lift (sample_along_timepoints tm timepoints (shape0 data)
                            interp_mean true);
          interp_samples ← transform e samples;
          emit (kdeplot (interp_samples.*1 ++ transformed.*1)
                  (interp_samples.*2 ++ transformed.*2) nl cmap)
     else mret tt) = ((tk, Ok tt) : W' unit)).
  { unfold tk. destruct perr; [|reflexivity].
    destruct (Hdensity eq_refl) as [Hsamples Hproj].
    unfold transform, lift. rewrite Hsamples. cbn. rewrite Hproj. reflexivity. }
  assert (Hloop : ∃ ts : list call',
    for_each (py_range 1 (Z.of_nat (length interp_mean)))
             (draw_segment interp_mean) = (ts, Ok tt) ∧
    length (plot_segments plt ts) = (length interp_mean - 1)%nat ∧
    kdeplot_points ts = [] ∧ embedding_calls ts = []).
  { change 1 with (Z.of_nat 1). rewrite py_range_seq.
    destruct (length interp_mean) as [|m'] eqn:Hm.
    { exists []. by repeat split. }
    destruct (segment_loop (color := color) (kwargs := kwargs)
                (FitState := FitState) interp_mean 1 (S m' - 1))
      as (ts & Hts & Hall); [lia..|].
    exists ts. split; [exact Hts|]. split.
    { apply Forall2_length in Hall. rewrite length_seq in Hall. lia. }
    apply for_each_Ok in Hts as (tss & Htss & ->). clear Hall.
    induction Htss as [|i tx ids tss Hx _ IH]; [done|].
    unfold draw_segment in Hx. run_inv. subst.
    cbn. exact IH. }
  destruct Hloop as (ts & Hts & Hsegs & Hkts & Hets).
  exists (t0 ++ [transform_call e means] ++ tk
          ++ [scatter plt (transformed.*1) (transformed.*2) (c_named colors) None
                None None None None (Some args);
              scatter plt (interp_mean.*1) (interp_mean.*2) (c_named "black") None
                (Some (5, 2)%Z) None None None None]
          ++ ts
          ++ [set_label plt x_axis "Dimension 1"; set_label plt y_axis "Dimension 2";
              set_ticks plt x_axis []; set_ticks plt y_axis []; despine]).
  split; [|split; [|split]].
  - unfold plot_transition_model. run_build. reflexivity.
  - rewrite !plot_segments_app, Hs0.
    set (s := plot_segments plt ts) in *. clearbody s.
    unfold tk. destruct perr; cbn; rewrite app_nil_r; exact Hsegs.
  - rewrite !kdeplot_points_app, Hk0, Hkts.
    unfold tk. destruct perr; reflexivity.
  - rewrite !embedding_calls_app, He0, Hets.
    unfold tk. destruct perr; reflexivity.
Qed.




(** X10.  The pseudotime clustermap cannot be drawn for fewer than ten
    pseudotime rows: the tick step [shape[0]/10] is then 0, and the call
    fails with [ZeroDivisionError] right after [sns.clustermap], whatever
    the gene names and pseudotimes are. *)
Theorem clustermap_needs_ten_rows
    (data_array : matrix F) gene_names (pseudotimes : list F) n_clusters gradient
    row_colors :
  let data_to_plot := (cluster_rows data_array gradient).1.1 in
  let scale := (cluster_rows data_array gradient).1.2 in
  let row_linkage := (cluster_rows data_array gradient).2 in
  palette (fcluster_maxclust row_linkage n_clusters) = Ok row_colors →
  shape0 data_array < 10 →
  plot_transition_clustermap (kwargs := kwargs) data_array gene_names pseudotimes
    n_clusters gradient
  = ([clustermap data_to_plot scale gene_names row_linkage row_colors],
     Raise ZeroDivisionError).
Proof.
  unfold plot_transition_clustermap.
  destruct (cluster_rows data_array gradient) as [[data_to_plot scale] row_linkage].
  cbn [fst snd]. intros Hc Hn.
  assert (Hstep : shape0 data_array / 10 = 0).
  { unfold shape0 in *. Z.div_mod_to_equations. lia. }
  rewrite Hc, Hstep. reflexivity.
Qed.


(** X14.  A [scatter_plot_args] that repeats one of the keywords [c],
    [linewidth], [alpha] written at the scatter of the data makes the
    graph plotter raise [TypeError] at that call: the embedding and the
    memberships have been resolved and the palette consulted, but no
    point is drawn; with the overlay only the empty two-panel figure has
    been created. *)
Theorem graph_plotter_repeated_keyword_raises
    data g nn pe se ew emb ms (args : kwargs) (t0 : list call')
    e transformed memberships (c : list color) :
  embedding_resolved data nn emb t0 e transformed →
  memberships_resolved g data ms memberships →
  palette memberships = Ok c →
  Exists (λ k, k ∈ keywords args) ["c"; "linewidth"; "alpha"] →
  plot_metastable_graph data g nn pe se ew emb ms args
  = (t0 ++ (if pe then [subplots 2] else []), Raise TypeError).
Proof.
  intros Hemb%embedding_step_Ok Hms Hc Hex%splat_Raise.
  assert (Hms' := proj2 (memberships_step_Ok (color := color) (kwargs := kwargs)
                           (FitState := FitState) g data ms [] memberships)
                    (conj eq_refl Hms)).
  unfold plot_metastable_graph.
  eapply bind_Raise_r; [exact Hemb|]. cbn beta iota.
  eapply (bind_Raise_r _ _ []); [exact Hms'|].
  destruct pe; cbn [negb].
  - eapply (bind_Raise_r _ _ [subplots 2] tt []); [reflexivity|].
    eapply (bind_Raise_r _ _ [] c []); [unfold lift; by rewrite Hc|].
    apply bind_Raise_l. unfold lift. by rewrite Hex.
  - eapply (bind_Raise_r _ _ [] c []); [unfold lift; by rewrite Hc|].
    apply bind_Raise_l. unfold lift. by rewrite Hex.
Qed.

(** X15.  A [scatter_plot_args] with a key [color] makes the transition
    plotter raise [TypeError] at the scatter of the data: the means (and,
    with [plot_errors], the samples) have been projected and the density
    has been drawn, but no point, marker or segment. *)
Theorem transition_plotter_repeated_color_raises
    data (tm : TransitionModel F) nn emb colors perr tps (args : kwargs) cmap nl
    (t0 : list call') e transformed timepoints means interp_mean
    samples interp_samples :
  embedding_resolved data nn emb t0 e transformed →
  match tps with
  | Some given => timepoints = given
  | None => ∃ grid, default_timepoints = Ok grid ∧ timepoints = of_Q <$> grid
  end →
  mean tm timepoints = Ok means →
  lle_transform e means = Ok interp_mean →
  (perr = true →
   sample_along_timepoints tm timepoints (shape0 data) interp_mean true
     = Ok samples ∧
   lle_transform e samples = Ok interp_samples) →
  "color" ∈ keywords args →
  plot_transition_model data tm nn emb colors perr tps args cmap nl
  = (t0 ++ transform_call e means
           :: (if perr
               then [transform_call e samples;
                     kdeplot (interp_samples.*1 ++ transformed.*1)
                       (interp_samples.*2 ++ transformed.*2) nl cmap]
               else []),
     Raise TypeError).
Proof.
  intros Hemb%embedding_step_Ok Htps Hmeans Hinterp Hdensity Hkw.
  assert (Hkw' : splat ["color"] args = Raise TypeError)
    by (by apply splat_Raise, Exists_cons_hd).
  assert (Htps' :
    match tps with
    | Some timepoints => mret timepoints
    | None => grid ← lift default_timepoints; mret (of_Q <$> grid)
    end = (([], Ok timepoints) : W' (list F))).
  { destruct tps as [given|]; [by subst|].
    destruct Htps as (grid & -> & ->). reflexivity. }
  assert (Htm : transform (kwargs := kwargs) e means
                = ([transform_call e means], Ok interp_mean)).
  { unfold transform, lift. rewrite Hinterp. reflexivity. }
  set (tk := if perr
             then [transform_call e samples;
                   kdeplot (interp_samples.*1 ++ transformed.*1)
                     (interp_samples.*2 ++ transformed.*2) nl cmap]
             else [] : list call').
  assert (Hk :
    (if perr
     then samples ← lift (sample_along_timepoints tm timepoints (shape0 data)
                            interp_mean true);
          interp_samples ← transform e samples;
          emit (kdeplot (interp_samples.*1 ++ transformed.*1)
                  (interp_samples.*2 ++ transformed.*2) nl cmap)
     else mret tt) = ((tk, Ok tt) : W' unit)).
  { unfold tk. destruct perr; [|reflexivity].
    destruct (Hdensity eq_refl) as [Hsamples Hproj].
    unfold transform, lift. rewrite Hsamples. cbn. rewrite Hproj. reflexivity. }
  fold tk.
  enough (Hrun : plot_transition_model data tm nn emb colors perr tps args cmap nl
                 = (t0 ++ [transform_call e means] ++ tk ++ [], Raise TypeError))
    by (rewrite Hrun; simpl; by rewrite app_nil_r).
  unfold plot_transition_model.
  eapply (bind_Raise_r _ _ []); [exact Htps'|].
  eapply bind_Raise_r; [exact Hemb|]. cbn beta iota.
  eapply (bind_Raise_r _ _ [] means); [unfold lift; by rewrite Hmeans|].
  eapply (bind_Raise_r _ _ [transform_call e means]); [exact Htm|].
  eapply (bind_Raise_r _ _ tk tt []); [exact Hk|].
  apply bind_Raise_l. unfold lift. by rewrite Hkw'.
Qed.

End MorePlotterFacts.

(** ** Exact arithmetic: the plots over the reals *)

Lemma Rmin_half_distance (a b : R) :
  (Rmin a b + Rabs (a - b) / Q2R 2 = (a + b) / 2)%R.
Proof.
  replace (Q2R 2) with 2%R by (unfold Q2R; simpl; lra).
  unfold Rmin, Rabs.
  destruct (Rle_dec a b), (Rcase_abs (a - b)); lra.
Qed.

Lemma Rtrunc_floor (x : R) :
  (0 <= x → IZR (Rtrunc x) <= x < IZR (Rtrunc x) + 1)%R.
Proof.
  intros Hx. unfold Rtrunc. destruct (Rle_dec 0 x); [|done].
  destruct (base_Int_part x). lra.
Qed.

Lemma node_size_real (memberships : list Z) (state : Z) :
  node_size memberships state
  = (5000 * ln (1 + INR (count_eq memberships state) / INR (length memberships)))%R.
Proof. unfold node_size. simpl. by rewrite <- !INR_IZR_INZ. Qed.

(** X8.  In exact arithmetic the marker area of a state present in the
    memberships is positive, at most [5000 ln 2] (reached exactly when
    every observation is in that state), and a state with more members
    gets the strictly larger marker. *)
Theorem node_sizes_grow_with_member_count
    (memberships : list Z) (state state' : Z) :
  state ∈ memberships →
  (0 < node_size memberships state <= 5000 * ln 2)%R ∧
  (node_size memberships state = (5000 * ln 2)%R
   ↔ count_eq memberships state = length memberships) ∧
  ((count_eq memberships state < count_eq memberships state')%nat →
   (node_size memberships state < node_size memberships state')%R).
Proof.
  intros Hstate. apply count_eq_bounds in Hstate as [Hk HkN].
  rewrite !node_size_real.
  set (k := count_eq memberships state) in *.
  set (k' := count_eq memberships state').
  set (N := length memberships) in *.
  assert (HN : (0 < INR N)%R) by (apply lt_0_INR; lia).
  assert (Hk0 : (0 < INR k)%R) by (apply lt_0_INR; lia).
  assert (HkN' : (INR k <= INR N)%R) by (by apply le_INR).
  assert (Hq : (0 < INR k / INR N <= 1)%R).
  { split; [by apply Rdiv_lt_0_compat|].
    apply (Rmult_le_reg_r (INR N)); [done|]. field_simplify; lra. }
  assert (Hln : (0 < ln (1 + INR k / INR N) <= ln 2)%R).
  { split.
    - rewrite <- ln_1. apply ln_increasing; lra.
    - destruct (Req_dec (INR k / INR N) 1) as [->|Hne].
      + replace (1 + 1)%R with 2%R by lra. lra.
      + left. apply ln_increasing; lra. }
  split; [lra|]. split.
  - split.
    + intros Heq. assert (Hl : ln (1 + INR k / INR N) = ln 2) by lra.
      apply ln_inv in Hl; [|lra..].
      assert (Hkn : INR k = INR N).
      { apply (Rmult_eq_reg_r (/ INR N)); [|apply Rinv_neq_0_compat; lra].
        rewrite Rinv_r by lra. unfold Rdiv in Hl. lra. }
      by apply INR_eq.
    + intros ->. unfold Rdiv. rewrite Rinv_r by lra.
      by replace (1 + 1)%R with 2%R by lra.
  - intros Hlt. apply Rmult_lt_compat_l; [lra|].
    apply ln_increasing; [lra|].
    apply Rplus_lt_compat_l. unfold Rdiv.
    apply Rmult_lt_compat_r; [by apply Rinv_0_lt_compat|by apply lt_INR].
Qed.

Section RealPlots.
Context {color kwargs FitState : Type} `{Countable color}.
Context `{!Collaborators R color FitState} `{!Keywords kwargs}.

#[local] Abbreviation call' := (call R color kwargs FitState).

(** X7.  In exact arithmetic every edge of the overlay is labelled at the
    midpoint of the segment drawn for it, and for a non-negative weight
    the label is the weight's percentage rounded down: one segment and
    one label per edge weight, in the order of the edge weights. *)
Theorem edge_labels_sit_at_segment_midpoints
    data (g : MetastableGraph R) nn se ew emb ms (args : kwargs) (t : list call') r :
  plot_metastable_graph data g nn true se ew emb ms args = (t, Ok r) →
  Forall3 (λ (item : State * State * R) (seg : point R * point R)
             (label : R * R * Z),
             label.1 = ((seg.1.1 + seg.2.1) / 2, (seg.1.2 + seg.2.2) / 2)%R ∧
             (0 <= item.2 → IZR label.2 <= 100 * item.2 < IZR label.2 + 1)%R)
          (resolve_edge_weights g ew)
          (plot_segments (axarr 1) t)
          (text_labels (axarr 1) t).
Proof.
  intros (e & transformed & t0 & memberships & c & centers & tc & te & c_states
          & Hemb & Hms & Hc & Hkw & Hcenters & Hedges & Hcs & -> & ->)
         %plot_metastable_graph_overlay_Ok.
  apply embedding_resolved_calls in Hemb.
  apply state_centers_calls in Hcenters as [Hcalls _].
  rewrite !plot_segments_app, !text_labels_app.
  destruct (embedding_calls_unobserved (axarr 1) _ Hemb) as (_ & _ & ->).
  destruct (embedding_calls_unobserved (axarr 1) _ Hcalls) as (_ & _ & ->).
  rewrite (embedding_calls_no_text _ t0), (embedding_calls_no_text _ tc) by done.
  cbn [app]. 
  change (plot_segments (axarr 1) [_; _; _; _; _]) with (@nil (point R * point R)).
  change (text_labels (axarr 1) [_; _; _; _; _]) with (@nil (R * R * Z)).
  change (plot_segments (axarr 1) [_; _; _; _; _; _; _; _])
    with (@nil (point R * point R)).
  change (text_labels (axarr 1) [_; _; _; _; _; _; _; _]) with (@nil (R * R * Z)).
  cbn [app]. rewrite !app_nil_r.
  apply for_each_Ok in Hedges as (ts & Hts & ->).
  induction Hts as [|[[s1 s2] w] tx edges ts Hx _ IH]; [by constructor|].
  apply draw_edge_Ok in Hx as (x1 & x2 & y1 & y2 & _ & _ & _ & _ & ->).
  cbn [concat]. rewrite plot_segments_app, text_labels_app.
  change (plot_segments (axarr 1) [_; _] : list (point R * point R))
    with [((x1, y1), (x2, y2))].
  match goal with
  | |- context [text_labels (axarr 1) [_; text _ ?mx ?my ?p]] =>
      change (text_labels (axarr 1) [_; text _ mx my p] : list (R * R * Z))
        with [(mx, my, p)]
  end.
  cbn [app]. constructor; [|exact IH].
  cbn [fst snd]. split.
  - simpl. by rewrite !Rmin_half_distance.
  - intros Hw. simpl.
    replace (100 * w)%R with (w * 100)%R by lra.
    apply Rtrunc_floor. lra.
Qed.

End RealPlots.

(** ** The heatmap by membership *)

Lemma mapM_result_Ok {A B} (f : A → result B) (l : list A) (k : list B) :
  mapM f l = Ok k ↔ Forall2 (λ x y, f x = Ok y) l k.
Proof.
  revert k. induction l as [|x l IH]; intros k; cbn [mapM].
  - change (mret [] : result (list B)) with (Ok (@nil B)).
    split; [intros [= <-]; constructor|by inversion 1].
  - unfold mbind, result_bind at 1.
    destruct (f x) as [y|err] eqn:Hx.
    2:{ split; [done|]. inversion 1 as [|? ? ? ? Hy]; simpl in Hy; congruence. }
    unfold mbind, result_bind at 1.
    destruct (mapM f l) as [k'|err].
    + split.
      * intros [= <-]. constructor; [done|]. by apply IH.
      * inversion 1 as [|? y' ? k'' Hy Hk]; subst.
        apply IH in Hk. simpl in Hy. unfold mret, result_ret. congruence.
    + split; [done|]. inversion 1 as [|? y' ? k'' Hy Hk]; subst.
      by apply IH in Hk.
Qed.

Lemma filter_disjoint_app {A} (P Q : A → Prop)
    `{∀ x, Decision (P x)} `{∀ x, Decision (Q x)} (l : list A) :
  (∀ x, P x → Q x → False) →
  filter P l ++ filter Q l ≡ₚ filter (λ x, P x ∨ Q x) l.
Proof.
  intros Hdisj. induction l as [|x l IH]; [done|].
  rewrite !filter_cons.
  destruct (decide (P x)) as [HP|HP], (decide (Q x)) as [HQ|HQ].
  - destruct (Hdisj x HP HQ).
  - rewrite decide_True by auto. simpl. by rewrite IH.
  - rewrite decide_True by auto. rewrite <- Permutation_middle. by rewrite IH.
  - rewrite decide_False by tauto. exact IH.
Qed.

Lemma filter_all {A} (P : A → Prop) `{∀ x, Decision (P x)} (l : list A) :
  (∀ x, x ∈ l → P x) → filter P l = l.
Proof.
  induction l as [|x l IH]; intros Hall; [done|].
  rewrite filter_cons_True by (apply Hall; left).
  f_equal. apply IH. intros y Hy. apply Hall. by right.
Qed.

Lemma filter_by_label_partition {A} (groups : list Z) (ps : list (Z * A)) :
  NoDup groups →
  concat ((λ g, filter (λ p, p.1 = g) ps) <$> groups)
  ≡ₚ filter (λ p, p.1 ∈ groups) ps.
Proof.
  induction 1 as [|g groups Hg Hnd IH]; simpl.
  - induction ps as [|p ps IHps]; [done|].
    rewrite filter_cons. rewrite decide_False by apply not_elem_of_nil. exact IHps.
  - rewrite IH. rewrite filter_disjoint_app by (intros p <- Hp; contradiction).
    apply reflexive_eq, list_filter_iff. intros p.
    rewrite elem_of_cons. naive_solver.
Qed.

Section MembershipHeatmapFacts.
Context {F : Type} `{FloatOps F} `{!HeatmapCollaborators F}.

Lemma select_rows_by_label (data : matrix F) (ms : list Z) (g : Z) :
  length ms = length data →
  select_rows data (equals_mask ms g)
  = Ok ((filter (λ p, p.1 = g) (zip ms data)).*2).
Proof.
  intros Hlen. unfold select_rows, equals_mask.
  rewrite length_fmap, Hlen, Nat.eqb_refl. f_equal.
  clear Hlen. revert data. induction ms as [|l ms IH]; intros [|row data]; try done.
  simpl. rewrite !filter_cons. simpl.
  destruct (decide (l = g)) as [->|Hne].
  - rewrite bool_decide_eq_true_2 by done. rewrite decide_True by done.
    simpl. by rewrite IH.
  - rewrite bool_decide_eq_false_2 by done. rewrite decide_False by done.
    apply IH.
Qed.

(** X12.  Given one label per row and at least one row, the heatmap by
    membership returns.  Its columns are labelled with the distinct
    labels, each once, the [i]-th tick sitting at [i + 0.5]; every row of
    the data is averaged into exactly one column, and no column is the
    mean of an empty selection. *)
Theorem membership_heatmap_one_column_per_label
    (data_array : matrix F) (memberships : list Z) :
  length memberships = length data_array →
  memberships ≠ [] →
  ∃ grid selections mins,
    plot_gene_clustermap_by_membership data_array memberships = Ok grid ∧
    xticklabels grid ≡ₚ remove_dups memberships ∧
    xticks grid
      = (λ i : nat, inject_Z (Z.of_nat i) + 0.5)%Q
          <$> seq 0 (length (xticklabels grid)) ∧
    Forall2 (λ group rows,
               select_rows data_array (equals_mask memberships group) = Ok rows ∧
               rows ≠ [])
            (xticklabels grid) selections ∧
    concat selections ≡ₚ data_array ∧
    min_0 (mean_0 <$> selections) = Ok mins ∧
    heatmap_data grid
      = transposed (subtract_from_rows (mean_0 <$> selections) mins).
Proof.
  intros Hlen Hne.
  set (groups := list_of_set memberships).
  assert (Hgroups : groups ≡ₚ remove_dups memberships)
    by apply list_of_set_distinct.
  assert (Hnd : NoDup groups) by (rewrite Hgroups; apply NoDup_remove_dups).
  assert (Hin : ∀ g, g ∈ groups ↔ g ∈ memberships).
  { intros g. rewrite Hgroups. apply elem_of_remove_dups. }
  set (sel := λ g : Z, (filter (λ p, p.1 = g) (zip memberships data_array)).*2).
  assert (Hmeans : mapM (group_mean data_array memberships) groups
                   = Ok (mean_0 <$> (sel <$> groups))).
  { apply mapM_result_Ok. rewrite <- list_fmap_compose.
    apply Forall2_fmap_r, Forall_Forall2_diag, Forall_forall. intros g _.
    unfold group_mean. by rewrite select_rows_by_label. }
  assert (Hg0 : groups ≠ []).
  { destruct memberships as [|l ms]; [done|].
    intros Hnil. assert (Hl : l ∈ groups) by (apply Hin; left).
    rewrite Hnil in Hl. by apply elem_of_nil in Hl. }
  assert (Hmins : ∃ mins, min_0 (mean_0 <$> (sel <$> groups)) = Ok mins).
  { destruct groups; [done|]. simpl. eauto. }
  destruct Hmins as [mins Hmins].
  eexists _, (sel <$> groups), mins.
  split; [|split; [|split; [|split; [|split; [|split]]]]].
  - unfold plot_gene_clustermap_by_membership. fold groups.
    rewrite Hmeans. simpl. rewrite Hmins. reflexivity.
  - exact Hgroups.
  - reflexivity.
  - simpl. apply Forall2_fmap_r, Forall_Forall2_diag, Forall_forall.
    intros g Hg. split; [by apply select_rows_by_label|].
    apply Hin in Hg. unfold sel.
    apply list_elem_of_lookup in Hg as [i Hi].
    destruct (lookup_lt_is_Some_2 data_array i) as [row Hrow].
    { rewrite <- Hlen. by eapply lookup_lt_Some. }
    assert (Hp : (g, row) ∈ filter (λ p, p.1 = g) (zip memberships data_array)).
    { apply list_elem_of_filter. split; [done|].
      apply list_elem_of_lookup. exists i. apply lookup_zip_with_Some. eauto. }
    intros Hnil. apply fmap_nil_inv in Hnil. rewrite Hnil in Hp.
    by apply elem_of_nil in Hp.
  - transitivity ((concat ((λ g, filter (λ p, p.1 = g)
                                      (zip memberships data_array)) <$> groups)).*2).
    { apply reflexive_eq. unfold sel. clear.
      induction groups as [|g gs IH]; [done|].
      simpl. rewrite fmap_app. f_equal. exact IH. }
    rewrite filter_by_label_partition by done.
    rewrite filter_all.
    + by rewrite snd_zip by lia.
    + intros [l row] Hp. simpl. apply Hin.
      apply (list_elem_of_fmap_2 fst) in Hp. rewrite fst_zip in Hp by lia. done.
  - done.
  - reflexivity.
Qed.

End MembershipHeatmapFacts.

(** ** The heatmap by membership in exact arithmetic *)

Lemma column_minimum (row : list R) (rows : list (list R)) (j : nat) (x : R) :
  foldl (zip_with Rmin) row rows !! j = Some x →
  (∀ r, r ∈ row :: rows → ∃ y, r !! j = Some y ∧ (x <= y)%R) ∧
  (∃ r, r ∈ row :: rows ∧ r !! j = Some x).
Proof.
  revert row x. induction rows as [|r1 rest IH]; intros row x; simpl.
  - intros Hx. split.
    + intros r ->%list_elem_of_singleton. exists x. split; [done|lra].
    + exists row. split; [left|done].
  - intros Hx. apply IH in Hx as [Hall (r & Hr & Hrx)].
    destruct (Hall (zip_with Rmin row r1)) as (y0 & Hy0 & Hxy0); [left|].
    apply lookup_zip_with_Some in Hy0 as (a & b & -> & Ha & Hb).
    assert (Hmin := Rmin_l a b). assert (Hmin' := Rmin_r a b).
    split.
    + intros r' Hr'. apply elem_of_cons in Hr' as [->|Hr'].
      { exists a. split; [done|lra]. }
      apply elem_of_cons in Hr' as [->|Hr'].
      { exists b. split; [done|lra]. }
      apply Hall. by right.
    + apply elem_of_cons in Hr as [->|Hr].
      * apply lookup_zip_with_Some in Hrx as (a' & b' & -> & Ha' & Hb').
        unfold Rmin. destruct (Rle_dec a' b').
        -- exists row. split; [left|done].
        -- exists r1. split; [right; left|done].
      * exists r. split; [by do 2 right|done].
Qed.

Section RealMembershipHeatmap.
Context `{!HeatmapCollaborators R}.

(** X13.  In exact arithmetic the matrix handed to [sns.clustermap] is
    the transpose of a matrix with one row per label whose entries are
    all non-negative and in which every gene (column) has a zero: each
    gene's group means are shifted so that the smallest is 0. *)
Theorem membership_heatmap_shifted_to_zero
    (data_array : matrix R) (memberships : list Z) (grid : ClusterGrid R) :
  plot_gene_clustermap_by_membership data_array memberships = Ok grid →
  ∃ (shifted : matrix R) (genes : nat),
    heatmap_data grid = transposed shifted ∧
    length shifted = length (xticklabels grid) ∧
    Forall (λ row, length row = genes ∧ Forall (λ x, 0 <= x)%R row) shifted ∧
    ∀ j, (j < genes)%nat → ∃ row, row ∈ shifted ∧ row !! j = Some 0%R.
Proof.
  unfold plot_gene_clustermap_by_membership.
  destruct (mapM _ _) as [group_means|err] eqn:Hmeans; [|done].
  apply mapM_result_Ok, Forall2_length in Hmeans.
  cbn. destruct (min_0 group_means) as [mins|err] eqn:Hmins; [|done].
  cbn. intros [= <-]. cbn.
  exists (subtract_from_rows group_means mins), (length mins).
  split; [done|]. split.
  { unfold subtract_from_rows. rewrite length_fmap. by cbn. }
  clear Hmeans. unfold min_0 in Hmins. destruct group_means as [|row rows]; [done|].
  injection Hmins as <-.
  set (mins := foldl (zip_with Rmin) row rows).
  assert (Hcol : ∀ j x, mins !! j = Some x →
            (∀ r, r ∈ row :: rows → ∃ y, r !! j = Some y ∧ (x <= y)%R) ∧
            (∃ r, r ∈ row :: rows ∧ r !! j = Some x))
    by apply column_minimum.
  split.
  - unfold subtract_from_rows. apply Forall_fmap, Forall_forall.
    intros r Hr. simpl. split.
    + rewrite length_zip_with. apply Nat.min_r.
      destruct mins as [|x0 mins'] eqn:Hm; [simpl; lia|].
      destruct (lookup_lt_is_Some_2 (x0 :: mins') (length mins'))
        as [x Hx]; [simpl; lia|].
      destruct (Hcol _ _ Hx) as [Hall _].
      destruct (Hall r Hr) as (y & Hy & _).
      apply lookup_lt_Some in Hy. simpl. lia.
    + apply Forall_forall. intros d Hd.
      apply list_elem_of_lookup in Hd as [j Hd].
      apply lookup_zip_with_Some in Hd as (y & x & -> & Hy & Hx).
      destruct (Hcol _ _ Hx) as [Hall _].
      destruct (Hall r Hr) as (y' & Hy' & Hle).
      rewrite Hy in Hy'. injection Hy' as <-. simpl. lra.
  - intros j Hj.
    destruct (lookup_lt_is_Some_2 mins j Hj) as [x Hx].
    destruct (Hcol _ _ Hx) as (_ & r & Hr & Hrx).
    exists (zip_with Rminus r mins). split.
    + unfold subtract_from_rows. by apply (list_elem_of_fmap_2 (λ row, zip_with _ row _)).
    + apply lookup_zip_with_Some. exists x, x. split; [lra|done].
Qed.

End RealMembershipHeatmap.

(** ** Further concrete runs *)

Open Scope string_scope.

(** Label 7 has no entry in the four-colour palette: the overlay run
    stops after creating the figure. *)
Lemma label_seven_raises_before_drawing :
  let t0 : list (call R string (gmap string string) nat) :=
    [transform_call Toy.fitted Toy.data] in
  (embedding_resolved (kwargs := gmap string string) Toy.data None (Some Toy.fitted) t0
     Toy.fitted (Toy.first_two <$> Toy.data) ∧
   memberships_resolved Toy.graph Toy.data (Some [0; 7; 0; 0]) [0; 7; 0; 0] ∧
   7 ∈ [0; 7; 0; 0] ∧
   STATE_COLORS (Collaborators := Toy.collaborators) 7 = None) ∧
  Toy.graph_run (Some [0; 7; 0; 0]) = ((t0 ++ [subplots 2])%list, Raise LookupError).
Proof.
  intros t0.
  assert (Hemb : embedding_resolved (kwargs := gmap string string) Toy.data None
                   (Some Toy.fitted) t0 Toy.fitted (Toy.first_two <$> Toy.data))
    by (repeat split; reflexivity).
  assert (Hms : memberships_resolved Toy.graph Toy.data (Some [0; 7; 0; 0])
                  [0; 7; 0; 0]) by reflexivity.
  assert (Hin : 7 ∈ [0; 7; 0; 0])
    by (apply list_elem_of_further, list_elem_of_here).
  assert (Hnone : STATE_COLORS (Collaborators := Toy.collaborators) 7 = None)
    by reflexivity.
  split; [done|].
  exact (graph_plotter_unknown_label_raises
           Toy.data Toy.graph None true [] [] (Some Toy.fitted)
           (Some [0; 7; 0; 0]) ∅ t0 Toy.fitted (Toy.first_two <$> Toy.data)
           [0; 7; 0; 0] 7 Hemb Hms Hin Hnone).
Defined.

(** States 0 and 1 present: an end point with index -1 is drawn at the
    node of state 1. *)
Lemma minus_one_is_the_last_state :
  let tc : list (call R string (gmap string string) nat) :=
    [transform_call Toy.fitted [[0; 0]]%R; transform_call Toy.fitted [[1; 1]]%R] in
  comprehension (state_center Toy.graph Toy.fitted) (np_unique Toy.labels)
    = (tc, Ok [(0, 0)%R; (1, 1)%R]) ∧
  ∃ state (tx : list (call R string (gmap string string) nat)) p,
    np_unique Toy.labels !! 1%nat = Some state ∧
    state_center Toy.graph Toy.fitted state = (tx, Ok p) ∧
    py_index [0; 1]%R (-1) = Some p.1 ∧
    ∀ label, label ∈ Toy.labels → label <= state.
Proof.
  intros tc.
  assert (Hc : comprehension (state_center Toy.graph Toy.fitted)
                 (np_unique Toy.labels) = (tc, Ok [(0, 0)%R; (1, 1)%R]))
    by reflexivity.
  split; [exact Hc|].
  destruct (negative_edge_index_counts_from_the_end
              Toy.graph Toy.fitted Toy.labels tc [(0, 0)%R; (1, 1)%R]
              (Build_State (-1)) 1 Hc)
    as (state & tx & p & Hstate & Hcenter & Hx & _ & Hmax);
    [vm_compute; lia|reflexivity|].
  exists state, tx, p. split; [exact Hstate|]. split; [exact Hcenter|].
  split; [exact Hx|]. exact (Hmax eq_refl).
Defined.

(** Two states present: after the data, two centroids are projected. *)
Lemma two_states_two_centroid_projections :
  ∃ t r,
    Toy.graph_run (Some Toy.labels) = (t, Ok r) ∧
    ∃ (t0 : list (call R string (gmap string string) nat)) e transformed memberships
      centroids_of_states,
      embedding_resolved Toy.data None (Some Toy.fitted) t0 e transformed ∧
      memberships_resolved Toy.graph Toy.data (Some Toy.labels) memberships ∧
      Forall2 (λ state centroid,
                 centroids (state_model Toy.graph) state = Some centroid)
              (np_unique memberships) centroids_of_states ∧
      embedding_calls t = (t0 ++ (transform_call e <$> centroids_of_states))%list.
Proof.
  assert (Hrun : ∃ t r, Toy.graph_run (Some Toy.labels) = (t, Ok r))
    by (eexists _, _; vm_compute; reflexivity).
  destruct Hrun as (t & r & Hrun). exists t, r. split; [exact Hrun|].
  exact (overlay_projects_each_present_centroid_once
           Toy.data Toy.graph None [] [] (Some Toy.fitted) (Some Toy.labels) ∅
           t r Hrun).
Defined.

(** The one edge of the toy graph: one segment, one label at its
    midpoint. *)
Lemma toy_edge_labelled_at_midpoint :
  ∃ t r,
    Toy.graph_run (Some Toy.labels) = (t, Ok r) ∧
    Forall3 (λ (item : State * State * R) (seg : point R * point R)
               (label : R * R * Z),
               label.1 = ((seg.1.1 + seg.2.1) / 2, (seg.1.2 + seg.2.2) / 2)%R ∧
               (0 <= item.2 → IZR label.2 <= 100 * item.2 < IZR label.2 + 1)%R)
            (resolve_edge_weights Toy.graph [])
            (plot_segments (axarr 1) t)
            (text_labels (axarr 1) t).
Proof.
  assert (Hrun : ∃ t r, Toy.graph_run (Some Toy.labels) = (t, Ok r))
    by (eexists _, _; vm_compute; reflexivity).
  destruct Hrun as (t & r & Hrun). exists t, r. split; [exact Hrun|].
  exact (edge_labels_sit_at_segment_midpoints
           Toy.data Toy.graph None [] [] (Some Toy.fitted) (Some Toy.labels) ∅
           t r Hrun).
Defined.

(** One observation of four in state 1, three in state 0: the marker of
    state 1 is the smaller one. *)
Lemma one_member_smaller_than_three :
  1 ∈ Toy.labels ∧
  (0 < node_size Toy.labels 1 <= 5000 * ln 2)%R ∧
  (node_size Toy.labels 1 < node_size Toy.labels 0)%R.
Proof.
  assert (Hin : 1 ∈ Toy.labels)
    by (do 2 apply list_elem_of_further; apply list_elem_of_here).
  split; [exact Hin|].
  destruct (node_sizes_grow_with_member_count Toy.labels 1 0 Hin)
    as (Hbounds & _ & Hless).
  split; [exact Hbounds|]. apply Hless. vm_compute. lia.
Defined.

(** The toy trajectory: three mean positions, two segments, one density
    over the four projected observations (no samples), and two
    projections besides that of the data. *)
Lemma toy_trajectory_returns :
  let t0 : list (call R string (gmap string string) nat) :=
    [transform_call Toy.fitted Toy.data] in
  let timepoints := [0; 1 / 2; 1]%R in
  let means := map (λ x : R, [x; x]) timepoints in
  (embedding_resolved (kwargs := gmap string string) Toy.data None (Some Toy.fitted) t0
     Toy.fitted (Toy.first_two <$> Toy.data) ∧
   mean Toy.diagonal timepoints = Ok means ∧
   lle_transform Toy.fitted means = Ok (Toy.first_two <$> means) ∧
   sample_along_timepoints Toy.diagonal timepoints (shape0 Toy.data)
     (Toy.first_two <$> means) true = Ok [] ∧
   lle_transform Toy.fitted [] = Ok [] ∧
   "color" ∉ keywords (∅ : gmap string string)) ∧
  ∃ t,
    Toy.transition_run = (t, Ok Toy.fitted) ∧
    length (plot_segments plt t) = 2%nat ∧
    kdeplot_points t
      = [((Toy.first_two <$> Toy.data).*1, (Toy.first_two <$> Toy.data).*2)] ∧
    embedding_calls t
      = (t0 ++ [transform_call Toy.fitted means;
                transform_call Toy.fitted []])%list.
Proof.
  intros t0 timepoints means.
  assert (Hemb : embedding_resolved (kwargs := gmap string string) Toy.data None
                   (Some Toy.fitted) t0 Toy.fitted (Toy.first_two <$> Toy.data))
    by (repeat split; reflexivity).
  assert (Hmeans : mean Toy.diagonal timepoints = Ok means) by reflexivity.
  assert (Hinterp : lle_transform Toy.fitted means = Ok (Toy.first_two <$> means))
    by reflexivity.
  assert (Hsamples :
    sample_along_timepoints Toy.diagonal timepoints (shape0 Toy.data)
      (Toy.first_two <$> means) true = Ok []) by reflexivity.
  assert (Hproj : lle_transform (F := R) Toy.fitted [] = Ok []) by reflexivity.
  assert (Hkw : "color" ∉ keywords (∅ : gmap string string))
    by (apply (bool_decide_unpack _); vm_compute; exact I).
  split; [done|].
  exact (transition_plotter_returns_when_collaborators_do
           Toy.data Toy.diagonal None (Some Toy.fitted) "magenta" true
           (Some timepoints) ∅ "Oranges" 4 t0 Toy.fitted
           (Toy.first_two <$> Toy.data) timepoints means
           (Toy.first_two <$> means) [] [] Hemb eq_refl Hmeans Hinterp
           (λ _, conj Hsamples Hproj) Hkw).
Defined.

(** [alpha] given twice: the overlay run stops at the first scatter,
    after creating the figure. *)
Lemma repeated_alpha_raises_TypeError :
  let t0 : list (call R string (gmap string string) nat) :=
    [transform_call Toy.fitted Toy.data] in
  (embedding_resolved (kwargs := gmap string string) Toy.data None
     (Some Toy.fitted) t0 Toy.fitted (Toy.first_two <$> Toy.data) ∧
   memberships_resolved Toy.graph Toy.data (Some Toy.labels) Toy.labels ∧
   palette Toy.labels = Ok ["red"; "red"; "blue"; "red"] ∧
   Exists (λ k, k ∈ keywords Toy.faint) ["c"; "linewidth"; "alpha"]) ∧
  plot_metastable_graph Toy.data Toy.graph None true [] [] (Some Toy.fitted)
    (Some Toy.labels) Toy.faint
  = ((t0 ++ [subplots 2])%list, Raise TypeError).
Proof.
  intros t0.
  assert (Hemb : embedding_resolved (kwargs := gmap string string) Toy.data None
                   (Some Toy.fitted) t0 Toy.fitted (Toy.first_two <$> Toy.data))
    by (repeat split; reflexivity).
  assert (Hms : memberships_resolved Toy.graph Toy.data (Some Toy.labels)
                  Toy.labels) by reflexivity.
  assert (Hc : palette Toy.labels = Ok ["red"; "red"; "blue"; "red"])
    by reflexivity.
  assert (Hex : Exists (λ k, k ∈ keywords Toy.faint) ["c"; "linewidth"; "alpha"])
    by (apply (bool_decide_unpack _); vm_compute; exact I).
  split; [done|].
  exact (graph_plotter_repeated_keyword_raises
           Toy.data Toy.graph None true [] [] (Some Toy.fitted)
           (Some Toy.labels) Toy.faint t0 Toy.fitted (Toy.first_two <$> Toy.data)
           Toy.labels ["red"; "red"; "blue"; "red"] Hemb Hms Hc Hex).
Defined.

(** [color] given twice: the trajectory run stops at the first scatter,
    after the density has been drawn. *)
Lemma repeated_color_raises_TypeError :
  let t0 : list (call R string (gmap string string) nat) :=
    [transform_call Toy.fitted Toy.data] in
  let timepoints := [0; 1 / 2; 1]%R in
  let means := map (λ x : R, [x; x]) timepoints in
  (embedding_resolved (kwargs := gmap string string) Toy.data None
     (Some Toy.fitted) t0 Toy.fitted (Toy.first_two <$> Toy.data) ∧
   mean Toy.diagonal timepoints = Ok means ∧
   lle_transform Toy.fitted means = Ok (Toy.first_two <$> means) ∧
   sample_along_timepoints Toy.diagonal timepoints (shape0 Toy.data)
     (Toy.first_two <$> means) true = Ok [] ∧
   lle_transform Toy.fitted [] = Ok [] ∧
   "color" ∈ keywords Toy.green) ∧
  plot_transition_model Toy.data Toy.diagonal None (Some Toy.fitted) "magenta"
    true (Some timepoints) Toy.green "Oranges" 4
  = ((t0 ++ [transform_call Toy.fitted means; transform_call Toy.fitted [];
             kdeplot (Toy.first_two <$> Toy.data).*1
               (Toy.first_two <$> Toy.data).*2 4 "Oranges"])%list,
     Raise TypeError).
Proof.
  intros t0 timepoints means.
  assert (Hemb : embedding_resolved (kwargs := gmap string string) Toy.data None
                   (Some Toy.fitted) t0 Toy.fitted (Toy.first_two <$> Toy.data))
    by (repeat split; reflexivity).
  assert (Hmeans : mean Toy.diagonal timepoints = Ok means) by reflexivity.
  assert (Hinterp : lle_transform Toy.fitted means = Ok (Toy.first_two <$> means))
    by reflexivity.
  assert (Hsamples :
    sample_along_timepoints Toy.diagonal timepoints (shape0 Toy.data)
      (Toy.first_two <$> means) true = Ok []) by reflexivity.
  assert (Hproj : lle_transform (F := R) Toy.fitted [] = Ok []) by reflexivity.
  assert (Hkw : "color" ∈ keywords Toy.green)
    by (apply (bool_decide_unpack _); vm_compute; exact I).
  split; [done|].
  exact (transition_plotter_repeated_color_raises
           Toy.data Toy.diagonal None (Some Toy.fitted) "magenta" true
           (Some timepoints) Toy.green "Oranges" 4 t0 Toy.fitted
           (Toy.first_two <$> Toy.data) timepoints means
           (Toy.first_two <$> means) [] [] Hemb eq_refl Hmeans Hinterp
           (λ _, conj Hsamples Hproj) Hkw).
Defined.

(** Four pseudotime rows: the heatmap is drawn, the ticks are not. *)
Lemma four_rows_raise_ZeroDivisionError :
  (palette (fcluster_maxclust (cluster_rows Toy.data false).2 10)
     = Ok ["blue"; "green"; "blue"] ∧
   shape0 Toy.data < 10) ∧
  ∃ c : call R string (gmap string string) nat,
    plot_transition_clustermap Toy.data ["g1"; "g2"; "g3"] Toy.pseudotimes 10 false
    = ([c], Raise ZeroDivisionError).
Proof.
  assert (Hc : palette (fcluster_maxclust (cluster_rows Toy.data false).2 10)
               = Ok ["blue"; "green"; "blue"]) by reflexivity.
  assert (Hn : shape0 Toy.data < 10) by (vm_compute; reflexivity).
  split; [done|]. eexists.
  exact (clustermap_needs_ten_rows (kwargs := gmap string string)
           Toy.data ["g1"; "g2"; "g3"] Toy.pseudotimes 10 false
           ["blue"; "green"; "blue"] Hc Hn).
Defined.


(** Four cells of types 0, 0, 1, 0: two columns, ticked at 0.5 and 1.5. *)
Lemma four_cells_two_columns :
  (length ToyHeatmap.cell_types = length ToyHeatmap.expression ∧
   ToyHeatmap.cell_types ≠ []) ∧
  ∃ grid selections,
    plot_gene_clustermap_by_membership ToyHeatmap.expression ToyHeatmap.cell_types
      = Ok grid ∧
    xticklabels grid ≡ₚ [0; 1] ∧
    length (xticks grid) = 2%nat ∧
    concat selections ≡ₚ ToyHeatmap.expression ∧
    Forall (λ rows : matrix R, rows ≠ []) selections.
Proof.
  assert (Hlen : length ToyHeatmap.cell_types = length ToyHeatmap.expression)
    by reflexivity.
  assert (Hne : ToyHeatmap.cell_types ≠ []) by discriminate.
  split; [done|].
  destruct (membership_heatmap_one_column_per_label
              ToyHeatmap.expression ToyHeatmap.cell_types Hlen Hne)
    as (grid & selections & mins & Hrun & Hlabels & Hticks & Hsel & Hrows & _).
  exists grid, selections. split; [exact Hrun|]. split.
  { etransitivity; [exact Hlabels|]. vm_compute. apply perm_swap. }
  split.
  - rewrite Hticks, length_fmap, length_seq.
    apply Permutation_length in Hlabels. exact Hlabels.
  - split; [exact Hrows|].
    clear -Hsel. induction Hsel as [|g rows gs sels [_ Hg] _ IH]; by constructor.
Defined.

(** The same four cells: the heatmap has no negative entry and a zero in
    each of its two genes. *)
Lemma four_cells_heatmap_shifted :
  ∃ grid,
    plot_gene_clustermap_by_membership ToyHeatmap.expression ToyHeatmap.cell_types
      = Ok grid ∧
    ∃ (shifted : matrix R) (genes : nat),
      heatmap_data grid = transposed shifted ∧
      length shifted = length (xticklabels grid) ∧
      Forall (λ row, length row = genes ∧ Forall (λ x, 0 <= x)%R row) shifted ∧
      ∀ j, (j < genes)%nat → ∃ row, row ∈ shifted ∧ row !! j = Some 0%R.
Proof.
  assert (Hrun : ∃ grid,
            plot_gene_clustermap_by_membership ToyHeatmap.expression
              ToyHeatmap.cell_types = Ok grid)
    by (eexists; vm_compute; reflexivity).
  destruct Hrun as [grid Hrun]. exists grid. split; [exact Hrun|].
  exact (membership_heatmap_shifted_to_zero
           ToyHeatmap.expression ToyHeatmap.cell_types grid Hrun).
Defined.
